(** * Receipt scanner: the document processor

    A shallow embedding of [src/document_processor.py], the module that
    extracts text from attachments and e-mail bodies and decides whether
    the text is a financial document.

    Python values are modelled as follows.
    - [str] is a list of Unicode code points, [bytes] a list of bytes.
    - The interpreter's Unicode tables (what is white space, what is a
      decimal digit, lower-casing, case-insensitive comparison) and the
      iteration order of a [set] are the fields of the class [PyRuntime];
      every general theorem holds for all of them.
    - The third-party capabilities ([langdetect.detect], the PDF reader,
      the OCR engine) are the fields of the record [Capabilities]; each
      may raise.
    - Exceptions are explicit: a computation is a value of [Exc A], and
      [try]/[except Exception] is the combinator [try_except].
    - [print] calls are not modelled. *)

From Stdlib Require Import List ZArith NArith Bool Lia Arith.
From Stdlib Require Import Strings.String Strings.Ascii Strings.Byte.
From Stdlib Require Import Permutation.
From Stdlib Require Import Numbers.DecimalString.
Import ListNotations.

Set Implicit Arguments.

(** ** Strings and bytes *)

Definition char := N.
Definition str := list char.
Definition bytes := list byte.

Definition char_eqb (a b : char) : bool := N.eqb a b.

Fixpoint str_eqb (a b : str) : bool :=
  match a, b with
  | [], [] => true
  | x :: a', y :: b' => char_eqb x y && str_eqb a' b'
  | _, _ => false
  end.

Definition str_eq_dec : forall a b : str, {a = b} + {a <> b} :=
  list_eq_dec N.eq_dec.

(** *** UTF-8 decoding: [bytes.decode('utf-8', errors='ignore')]

    A lead byte opens a sequence and fixes the range of the byte that
    must follow it; an ill-formed sequence is dropped up to the byte
    that broke it, and that byte is looked at again as a lead byte. *)

Inductive utf8_lead :=
| Lead_ascii (c : char)
| Lead_open (acc : N) (more : nat) (lo hi : N)
| Lead_bad.

Definition utf8_start (b : N) : utf8_lead :=
  (if b <? 128 then Lead_ascii b
  else if b <? 194 then Lead_bad
  else if b <? 224 then Lead_open (N.land b 31) 0 128 191
  else if b =? 224 then Lead_open (N.land b 15) 1 160 191
  else if b =? 237 then Lead_open (N.land b 15) 1 128 159
  else if b <? 240 then Lead_open (N.land b 15) 1 128 191
  else if b =? 240 then Lead_open (N.land b 7) 2 144 191
  else if b <? 244 then Lead_open (N.land b 7) 2 128 191
  else if b =? 244 then Lead_open (N.land b 7) 2 128 143
  else Lead_bad)%N.

(** [pending] is the sequence under way: the bits read so far, how many
    continuation bytes follow the next one, and the range of the next. *)
Fixpoint utf8_run (pending : option (N * nat * N * N)) (bs : list N) : str :=
  match bs with
  | [] => []
  | b :: bs' =>
      let restart :=
        match utf8_start b with
        | Lead_ascii c => c :: utf8_run None bs'
        | Lead_open acc more lo hi => utf8_run (Some (acc, more, lo, hi)) bs'
        | Lead_bad => utf8_run None bs'
        end in
      match pending with
      | None => restart
      | Some (acc, more, lo, hi) =>
          if (lo <=? b) && (b <=? hi) then
            let acc' := acc * 64 + N.land b 63 in
            match more with
            | O => acc' :: utf8_run None bs'
            | S more' => utf8_run (Some (acc', more', 128, 191)) bs'
            end
          else restart
      end
  end%N.

Definition decode_utf8_ignore (data : bytes) : str :=
  utf8_run None (map Byte.to_N data).

(** String literals of the source, written in UTF-8 in this file. *)
Definition u (s : string) : str :=
  decode_utf8_ignore (list_byte_of_string s).
Arguments u : simpl never.

(** *** [str] methods *)

(** [s.startswith(p)] *)
Fixpoint startswith (s p : str) : bool :=
  match p, s with
  | [], _ => true
  | x :: p', y :: s' => char_eqb x y && startswith s' p'
  | _ :: _, [] => false
  end.

(** [sub in s] *)
Fixpoint contains (sub s : str) : bool :=
  startswith s sub ||
  match s with
  | [] => false
  | _ :: s' => contains sub s'
  end.

(** [s.count(sub)]: occurrences that do not overlap, from the left.
    [skip] is the number of characters still covered by the occurrence
    found last. *)
Fixpoint count_from (sub s : str) (skip : nat) : nat :=
  match s with
  | [] => 0
  | _ :: s' =>
      match skip with
      | S n => count_from sub s' n
      | O => if startswith s sub
             then S (count_from sub s' (Nat.pred (List.length sub)))
             else count_from sub s' 0
      end
  end.

Definition count (s sub : str) : nat :=
  match sub with
  | [] => S (List.length s)
  | _ :: _ => count_from sub s 0
  end.

(** [s[:n]] *)
Definition slice_to {A} (n : nat) (l : list A) : list A := firstn n l.
Arguments slice_to : simpl never.

Fixpoint dropwhile {A} (p : A -> bool) (l : list A) : list A :=
  match l with
  | [] => []
  | x :: l' => if p x then dropwhile p l' else l
  end.

(** ** The interpreter *)

Class PyRuntime := {
  (** [str.isspace] of one character; also the regular expressions' [\s] *)
  isspace : char -> bool;
  (** decimal digits, the regular expressions' [\d] *)
  isdecimal : char -> bool;
  (** [str.lower()] *)
  lower : str -> str;
  (** a pattern's literal against a character of the text under
      [re.IGNORECASE] *)
  ci_eq : char -> char -> bool;
  (** [list(set(l))]: each distinct element once, in an order that the
      language leaves open *)
  list_of_set : list str -> list str;
  list_of_set_perm :
    forall l, Permutation (list_of_set l) (nodup str_eq_dec l)
}.

(** ** Exceptions *)

Inductive exn := AttributeError | TypeError | LibraryError.

Inductive Exc (A : Type) :=
| Return (a : A)
| Raise (e : exn).
Arguments Return {A} a.
Arguments Raise {A} e.

Definition bind {A B} (c : Exc A) (f : A -> Exc B) : Exc B :=
  match c with
  | Return a => f a
  | Raise e => Raise e
  end.

(** [try: body except Exception as e: handler e] *)
Definition try_except {A} (body : Exc A) (handler : exn -> Exc A) : Exc A :=
  match body with
  | Return a => Return a
  | Raise e => handler e
  end.

Declare Scope exc_scope.
Delimit Scope exc_scope with exc.
Notation "x <- c ;; k" := (bind c (fun x => k))
  (at level 61, c at next level, right associativity) : exc_scope.

(** ** Third-party capabilities *)

Record Capabilities := {
  (** [langdetect.detect(text)] *)
  detect : str -> Exc str;
  (** [PyPDF2.PdfReader(io.BytesIO(data)).pages] with, for each page in
      order, the outcome of [page.extract_text()] *)
  pdf_pages : bytes -> Exc (list (Exc str));
  (** [pytesseract.image_to_string(Image.open(io.BytesIO(data)), ...)] *)
  image_to_string : bytes -> Exc str
}.

(** ** Regular expressions

    The fragment of [re] that the patterns of the source are written in:
    literals, [\d], [\s], character sets, concatenation, alternation and
    greedy repetition of a one-character item.  The groups of the
    patterns handed to [re.findall] are all non-capturing, so [findall]
    returns whole matches. *)

Inductive set_item :=
| In_char (c : char)
| In_space
| In_digit.

Inductive atom :=
| Lit (c : char)
| Digit
| Space
| Set_of (negated : bool) (items : list set_item).

Inductive regex :=
| Empty
| One (a : atom)
| Cat (r1 r2 : regex)
| Alt (r1 r2 : regex)
| Rep (a : atom) (lo : nat) (hi : option nat).

(** A literal string, a sequence and an alternation of several. *)
Fixpoint lit (s : str) : regex :=
  match s with
  | [] => Empty
  | [c] => One (Lit c)
  | c :: s' => Cat (One (Lit c)) (lit s')
  end.

Fixpoint seq (rs : list regex) : regex :=
  match rs with
  | [] => Empty
  | [r] => r
  | r :: rs' => Cat r (seq rs')
  end.

Fixpoint alts (rs : list regex) : regex :=
  match rs with
  | [] => Empty
  | [r] => r
  | r :: rs' => Alt r (alts rs')
  end.

Definition star (a : atom) : regex := Rep a 0 None.
Definition plus (a : atom) : regex := Rep a 1 None.
Definition opt (a : atom) : regex := Rep a 0 (Some 1).
Definition times (n : nat) (a : atom) : regex := Rep a n (Some n).

Section Matching.
Context {rt : PyRuntime}.

(** [ic] is the flag [re.IGNORECASE]. *)
Variable ic : bool.

Definition lit_match (l c : char) : bool :=
  if ic then ci_eq l c else char_eqb l c.

Definition item_match (c : char) (i : set_item) : bool :=
  match i with
  | In_char l => lit_match l c
  | In_space => isspace c
  | In_digit => isdecimal c
  end.

Definition atom_match (a : atom) (c : char) : bool :=
  match a with
  | Lit l => lit_match l c
  | Digit => isdecimal c
  | Space => isspace c
  | Set_of negated items => xorb negated (existsb (item_match c) items)
  end.

(** Greedy repetition: take one more character while allowed, and fall
    back to stopping here when the rest of the pattern then fails. *)
Fixpoint rep_greedy {A} (a : atom) (lo : nat) (hi : option nat)
    (s : str) (k : str -> option A) : option A :=
  let stop := match lo with O => k s | S _ => None end in
  match hi with
  | Some O => stop
  | _ =>
      match s with
      | c :: s' =>
          if atom_match a c then
            match rep_greedy a (Nat.pred lo) (option_map Nat.pred hi) s' k with
            | Some x => Some x
            | None => stop
            end
          else stop
      | [] => stop
      end
  end.

(** Backtracking match at the start of [s]; [k] receives what is left
    of the text and answers whether the rest of the match goes through. *)
Fixpoint rmatch {A} (r : regex) (s : str) (k : str -> option A) : option A :=
  match r with
  | Empty => k s
  | One a =>
      match s with
      | c :: s' => if atom_match a c then k s' else None
      | [] => None
      end
  | Cat r1 r2 => rmatch r1 s (fun s1 => rmatch r2 s1 k)
  | Alt r1 r2 =>
      match rmatch r1 s k with
      | Some x => Some x
      | None => rmatch r2 s k
      end
  | Rep a lo hi => rep_greedy a lo hi s k
  end.

(** Length of the match at the start of [s], if there is one. *)
Definition match_len (r : regex) (s : str) : option nat :=
  rmatch r s (fun rest => Some (List.length s - List.length rest)).

(** The same for a match that must not be empty. *)
Definition match_len_advance (r : regex) (s : str) : option nat :=
  rmatch r s (fun rest =>
    if List.length rest <? List.length s
    then Some (List.length s - List.length rest) else None).

(** [re.search(r, s)] as a truth value *)
Fixpoint search (r : regex) (s : str) : bool :=
  match match_len r s with
  | Some _ => true
  | None =>
      match s with
      | [] => false
      | _ :: s' => search r s'
      end
  end.

(** [re.findall(r, s)]: the matches from left to right, each search
    starting where the match before ended.  [skip] counts the characters
    still inside the match found last; after an empty match the same
    position is tried once more for a match that is not empty. *)
Fixpoint findall_from (r : regex) (s : str) (skip : nat) : list str :=
  match s with
  | [] =>
      match skip, match_len r [] with
      | O, Some _ => [[]]
      | _, _ => []
      end
  | _ :: s' =>
      match skip with
      | S n => findall_from r s' n
      | O =>
          match match_len r s with
          | None => findall_from r s' 0
          | Some (S n) => firstn (S n) s :: findall_from r s' n
          | Some O =>
              [] ::
              match match_len_advance r s with
              | Some (S n) => firstn (S n) s :: findall_from r s' n
              | _ => findall_from r s' 0
              end
          end
      end
  end.

Definition findall (r : regex) (s : str) : list str := findall_from r s 0.

End Matching.

(** [s.strip()] *)
Definition strip {rt : PyRuntime} (s : str) : str :=
  rev (dropwhile isspace (rev (dropwhile isspace s))).

(** ** The document processor *)

Definition ch (a : ascii) : char := N_of_ascii a.

(** *** [__init__]: the two tables *)

(** [self.financial_keywords], a dict from language code to keywords *)
Definition financial_keywords : list (str * list str) :=
  [ (u "ru", map u
       [ "квитанция"; "чек"; "счет"; "оплата"; "платеж"; "сумма";
         "итого"; "к доплате"; "банк"; "карта"; "наличные";
         "услуги"; "товары"; "покупка"; "руб"; "рубл" ]);
    (u "en", map u
       [ "receipt"; "invoice"; "bill"; "payment"; "total"; "amount";
         "purchase"; "transaction"; "card"; "cash"; "bank"; "due";
         "subtotal"; "tax"; "service"; "goods" ]);
    (u "de", map u
       [ "rechnung"; "quittung"; "zahlung"; "summe"; "gesamt";
         "betrag"; "kauf"; "bank"; "karte"; "bar" ]);
    (u "fr", map u
       [ "facture"; "reçu"; "paiement"; "total"; "montant";
         "achat"; "banque"; "carte"; "espèces" ]) ]%string.

(** [d[key]] and [key in d] for a dict written as its list of items *)
Fixpoint dict_get {V} (d : list (str * V)) (key : str) : option V :=
  match d with
  | [] => None
  | (k, v) :: d' => if str_eqb k key then Some v else dict_get d' key
  end.

Definition dict_mem {V} (d : list (str * V)) (key : str) : bool :=
  match dict_get d key with
  | Some _ => true
  | None => false
  end.

(** [\d+[.,]\d{2}], the number that every amount pattern contains *)
Definition number : regex :=
  seq [ plus Digit; One (Set_of false [In_char (ch "."); In_char (ch ",")]);
        times 2 Digit ].

(** [self.amount_patterns] *)
Definition amount_patterns : list regex :=
  [ (* \d+[.,]\d{2}\s*(?:руб|₽|rub) *)
    seq [ number; star Space; alts [lit (u "руб"); lit (u "₽"); lit (u "rub")] ];
    (* \$\s*\d+[.,]\d{2} *)
    seq [ lit (u "$"); star Space; number ];
    (* €\s*\d+[.,]\d{2} *)
    seq [ lit (u "€"); star Space; number ];
    (* £\s*\d+[.,]\d{2} *)
    seq [ lit (u "£"); star Space; number ];
    (* \d+[.,]\d{2}\s*(?:USD|EUR|GBP) *)
    seq [ number; star Space; alts [lit (u "USD"); lit (u "EUR"); lit (u "GBP")] ];
    (* (?:итого|total|sum|amount)[\s:]*\d+[.,]\d{2} *)
    seq [ alts [lit (u "итого"); lit (u "total"); lit (u "sum"); lit (u "amount")];
          star (Set_of false [In_space; In_char (ch ":")]); number ] ]%string.

(** The two bonus patterns of [_analyze_financial_content] *)
Definition invoice_pattern : regex :=
  alts (map (fun w => lit (u w))
          [ "invoice"; "счет"; "facture"; "rechnung" ]%string).

Definition receipt_pattern : regex :=
  alts (map (fun w => lit (u w))
          [ "receipt"; "квитанция"; "reçu"; "quittung" ]%string).

(** A character of a link: the negated set of white space, [<], [>] and
    the double quote (code point 34) *)
Definition link_char : atom :=
  Set_of true [In_space; In_char (ch "<"); In_char (ch ">"); In_char 34%N].

(** [https?://] then link characters, one of the words, link characters *)
Definition link_pattern (words : list string) : regex :=
  seq [ lit (u "http"); opt (Lit (ch "s")); lit (u "://"); star link_char;
        alts (map (fun w => lit (u w)) words); star link_char ].

(** [financial_patterns] of [_extract_financial_links] *)
Definition financial_patterns : list regex :=
  [ link_pattern [ "receipt"; "invoice"; "bill"; "payment"; "transaction" ];
    link_pattern [ "квитанц"; "счет"; "платеж"; "оплат" ];
    link_pattern [ "facture"; "rechnung"; "paiement"; "zahlung" ] ]%string.

(** *** The records *)

(** The dict that [_analyze_financial_content] returns *)
Module Analysis.
Record t := make {
  is_financial : bool;
  score : Z;
  language : str;
  keywords : list str;
  amounts : list str
}.
End Analysis.

(** The dict that [process_attachment] and [analyze_email_content]
    return; the caller's [mime_type] may be [None] *)
Record DocumentAnalysis := {
  filename : str;
  mime_type : option str;
  text : str;
  language : str;
  financial_score : Z;
  amounts_found : list str;
  keywords_found : list str
}.

Section Processor.
Context {rt : PyRuntime}.
Variable caps : Capabilities.

Local Open Scope exc_scope.
Local Open Scope Z_scope.

Definition newline : str := [10%N].

(** *** [_extract_from_pdf]

    The local variable [text] is the state of the [try] block and keeps
    what was added to it when a page raises. *)
Fixpoint pdf_loop (pages : list (Exc str)) (text : str) : str * Exc unit :=
  match pages with
  | [] => (text, Return tt)
  | Return page_text :: rest => pdf_loop rest (text ++ (page_text ++ newline))
  | Raise e :: _ => (text, Raise e)
  end.

Definition _extract_from_pdf (file_data : bytes) : Exc str :=
  let text := [] in
  let '(text, _) :=
    match pdf_pages caps file_data with
    | Return pages => pdf_loop pages text
    | Raise e => (text, Raise e)
    end in
  Return text.

(** *** [_extract_from_image] *)
Definition _extract_from_image (file_data : bytes) : Exc str :=
  try_except (image_to_string caps file_data) (fun _ => Return []).

(** [mime_type.startswith(p)], an [AttributeError] on [None] *)
Definition startswith_method (mime_type : option str) (p : str) : Exc bool :=
  match mime_type with
  | Some m => Return (startswith m p)
  | None => Raise AttributeError
  end.

(** [mime_type == literal] *)
Definition eq_literal (mime_type : option str) (literal : str) : bool :=
  match mime_type with
  | Some m => str_eqb m literal
  | None => false
  end.

(** *** [_extract_text] *)
Definition _extract_text (file_data : bytes) (mime_type : option str)
  : Exc str :=
  try_except
    (text <-
       (if eq_literal mime_type (u "application/pdf") then
          _extract_from_pdf file_data
        else
          is_image <- startswith_method mime_type (u "image/") ;;
          if is_image then _extract_from_image file_data
          else
            is_text <- startswith_method mime_type (u "text/") ;;
            if is_text then Return (decode_utf8_ignore file_data)
            else Return []) ;;
     Return (strip text))
    (fun _ => Return []).

(** *** [_extract_financial_links] *)
Definition _extract_financial_links (text : str) : list str :=
  let links :=
    fold_left (fun links pattern => links ++ findall true pattern text)
      financial_patterns [] in
  list_of_set links.

(** *** [_analyze_financial_content] *)

(** The language: what [detect] answers when that is a key of the
    lexicon, and ["en"] otherwise or when [detect] raises. *)
Definition detected_language (text : str) : str :=
  match detect caps text with
  | Return language =>
      if negb (dict_mem financial_keywords language) then u "en" else language
  | Raise _ => u "en"
  end.

(** The inner loop over the keywords of one language; the state is
    [(keywords_found, keyword_count)]. *)
Definition scan_keyword_list (text_lower : str) (kws : list str)
    (st : list str * nat) : list str * nat :=
  fold_left
    (fun '(keywords_found, keyword_count) keyword =>
       if contains keyword text_lower
       then (keywords_found ++ [keyword],
             (keyword_count + count text_lower keyword)%nat)
       else (keywords_found, keyword_count))
    kws st.

(** The outer loop, [for lang in [language, 'en']] *)
Definition scan_keywords (text_lower language : str) : list str * nat :=
  fold_left
    (fun st lang =>
       match dict_get financial_keywords lang with
       | Some kws => scan_keyword_list text_lower kws st
       | None => st
       end)
    [language; u "en"] ([], 0%nat).

(** The loop over [self.amount_patterns]; this is [amounts_found]
    before it is cut to three. *)
Definition find_amounts (text : str) : list str :=
  fold_left (fun amounts_found pattern =>
               amounts_found ++ findall true pattern text)
    amount_patterns [].

Definition _analyze_financial_content (text : str) : Analysis.t :=
  let text_lower := lower text in
  let language := detected_language text in
  let '(keywords_found, keyword_count) := scan_keywords text_lower language in
  let amounts_found := find_amounts text in
  let score := 0 in
  let score := score + Z.min (Z.of_nat keyword_count * 2) 20 in
  let score := score + Z.min (Z.of_nat (List.length amounts_found) * 5) 20 in
  let score := if search false invoice_pattern text_lower
               then score + 10 else score in
  let score := if search false receipt_pattern text_lower
               then score + 10 else score in
  let is_financial :=
    (15 <=? score) || (0 <? Z.of_nat (List.length amounts_found)) in
  Analysis.make is_financial score language
    (slice_to 5 keywords_found) (slice_to 3 amounts_found).

(** What one bonus pattern adds to the score *)
Definition bonus (p : regex) (text_lower : str) : Z :=
  if search false p text_lower then 10 else 0.

(** *** [process_attachment] *)
Definition process_attachment (file_data : bytes) (filename : str)
    (mime_type : option str) : Exc (option DocumentAnalysis) :=
  try_except
    (text <- _extract_text file_data mime_type ;;
     match text with
     | [] => Return None
     | _ :: _ =>
         let analysis := _analyze_financial_content text in
         if Analysis.is_financial analysis then
           Return (Some
             {| filename := filename;
                mime_type := mime_type;
                text := slice_to 1000 text;
                language := Analysis.language analysis;
                financial_score := Analysis.score analysis;
                amounts_found := Analysis.amounts analysis;
                keywords_found := Analysis.keywords analysis |})
         else Return None
     end)
    (fun _ => Return None).

(** [f"link:{link[:30]}..."] *)
Definition link_label (link : str) : str :=
  u "link:" ++ slice_to 30 link ++ u "...".

(** *** [analyze_email_content]

    The links change [score] and [keywords] of the analysis; its
    [is_financial] stays as [_analyze_financial_content] set it. *)
Definition analyze_email_content (email_body subject : str)
  : Exc (option DocumentAnalysis) :=
  try_except
    (let full_text := subject ++ newline ++ email_body in
     match strip full_text with
     | [] => Return None
     | _ :: _ =>
         let analysis := _analyze_financial_content full_text in
         let financial_links := _extract_financial_links email_body in
         let analysis :=
           match financial_links with
           | [] => analysis
           | _ :: _ =>
               Analysis.make
                 (Analysis.is_financial analysis)
                 (Analysis.score analysis
                  + Z.of_nat (List.length financial_links) * 3)
                 (Analysis.language analysis)
                 (Analysis.keywords analysis
                  ++ map link_label (slice_to 3 financial_links))
                 (Analysis.amounts analysis)
           end in
         if Analysis.is_financial analysis then
           Return (Some
             {| filename := u "email_content";
                mime_type := Some (u "text/html");
                text := slice_to 1000 full_text;
                language := Analysis.language analysis;
                financial_score := Z.min (Analysis.score analysis) 100;
                amounts_found := Analysis.amounts analysis;
                keywords_found := Analysis.keywords analysis |})
         else Return None
     end)
    (fun _ => Return None).

End Processor.

(** ** A concrete interpreter and concrete capabilities

    Used to run the model on examples.  White space is Python's full
    table; digits and letter case cover Basic Latin, Latin-1 and the
    Cyrillic block, the scripts of the lexicon and of the patterns. *)

Definition in_range (lo hi c : N) : bool := ((lo <=? c) && (c <=? hi))%N.

Definition isspace_table (c : char) : bool :=
  in_range 9 13 c || in_range 28 32 c || (c =? 133)%N || (c =? 160)%N
  || (c =? 5760)%N || in_range 8192 8202 c || in_range 8232 8233 c
  || (c =? 8239)%N || (c =? 8287)%N || (c =? 12288)%N.

Definition isdecimal_table (c : char) : bool := in_range 48 57 c.

Definition lower_char (c : char) : char :=
  (if in_range 65 90 c then c + 32
   else if in_range 192 222 c && negb (c =? 215) then c + 32
   else if in_range 1040 1071 c then c + 32
   else if in_range 1024 1039 c then c + 80
   else c)%N.

#[export] Instance table_runtime : PyRuntime := {|
  isspace := isspace_table;
  isdecimal := isdecimal_table;
  lower := map lower_char;
  ci_eq := fun l c => char_eqb (lower_char l) (lower_char c);
  list_of_set := nodup str_eq_dec;
  list_of_set_perm := fun l => Permutation_refl _
|}.

(** Capabilities whose language detector answers [answer] on every text,
    whose PDF reader yields [pages] and whose OCR yields [ocr]. *)
Definition fixed_caps (answer : Exc str) (pages : Exc (list (Exc str)))
    (ocr : Exc str) : Capabilities :=
  {| detect := fun _ => answer;
     pdf_pages := fun _ => pages;
     image_to_string := fun _ => ocr |}.

Definition caps_lang (code : string) : Capabilities :=
  fixed_caps (Return (u code)) (Raise LibraryError) (Raise LibraryError).

Definition caps_failing : Capabilities :=
  fixed_caps (Raise LibraryError) (Raise LibraryError) (Raise LibraryError).

(** ** Notions used in the statements *)

Section Notions.
Context {rt : PyRuntime}.

(** A text of white space only (the empty text included) *)
Definition whitespace_only (s : str) : bool := forallb isspace s.

(** The media types that [_extract_text] has a branch for *)
Definition supported_type (m : str) : bool :=
  str_eqb m (u "application/pdf")
  || startswith m (u "image/")
  || startswith m (u "text/").

(** A media type that is missing or has no branch *)
Definition unsupported (mime : option str) : Prop :=
  match mime with
  | None => True
  | Some m => supported_type m = false
  end.

(** The text of the pages [texts], each followed by a newline *)
Definition pages_text (texts : list str) : str :=
  List.concat (map (fun page_text => page_text ++ [10%N]) texts).

(** The keywords of one language, none when the lexicon lacks it *)
Definition keywords_of (lang : str) : list str :=
  match dict_get financial_keywords lang with
  | Some kws => kws
  | None => []
  end.

(** The keywords of a list that occur in the text, in list order, and
    the sum of their occurrence counts *)
Definition matched (text_lower : str) (kws : list str) : list str :=
  filter (fun keyword => contains keyword text_lower) kws.

Definition occurrences (text_lower : str) (kws : list str) : nat :=
  list_sum (map (count text_lower) (matched text_lower kws)).

(** All matches of the link patterns, before duplicates are removed *)
Definition link_matches (text : str) : list str :=
  flat_map (fun pattern => findall true pattern text) financial_patterns.

End Notions.

(** What a run reports as score, and as keywords *)
Definition reported_score (r : Exc (option DocumentAnalysis)) : option Z :=
  match r with
  | Return (Some d) => Some (financial_score d)
  | _ => None
  end.

Definition reported_keywords (r : Exc (option DocumentAnalysis))
  : option (list str) :=
  match r with
  | Return (Some d) => Some (keywords_found d)
  | _ => None
  end.

(** Example inputs *)
Definition four_links : str :=
  u ("http://a.b/invoice1 http://a.b/invoice2 " ++
     "http://a.b/invoice3 http://a.b/invoice4")%string.

Definition scenario_body : str :=
  u "Please pay now https://billing.example.com/invoice/123".

Definition scenario_subject : str := u "Invoice #123".

Definition three_pages : Exc (list (Exc str)) :=
  Return [Return (u "Total due"); Return (u "12.50 EUR");
          Raise LibraryError; Return (u "never read")].

Definition caps_pdf : Capabilities :=
  fixed_caps (Return (u "en")) three_pages (Raise LibraryError).

(** ** The Gmail client ([gmail_client.py])

    A message of the Gmail API is a tree of parts.  An entry of a dict
    that may be absent is an [option]; reading an absent entry with
    [d[key]] raises. *)

(** A missing key.  Every handler of the source catches [Exception], so
    none tells one exception from another. *)
Definition KeyError : exn := LibraryError.

(** [d[key]] *)
Definition getitem {A} (entry : option A) : Exc A :=
  match entry with
  | Some a => Return a
  | None => Raise KeyError
  end.

(** The truth value of [d.get(key)] for a string entry: the entry is
    there and not empty. *)
Definition truthy (entry : option str) : option str :=
  match entry with
  | Some (c :: s) => Some (c :: s)
  | _ => None
  end.

Module Body.
Record t := make {
  attachmentId : option str;
  size : option Z;
  data : option str
}.
End Body.

Module Header.
Record t := make {
  name : str;
  value : str
}.
End Header.

#[warnings="-register-all"]
Inductive part := Part {
  part_headers : option (list Header.t);
  part_filename : option str;
  part_mimeType : option str;
  part_body : option Body.t;
  part_parts : option (list part)
}.

Module Message.
Record t := make {
  id : str;
  payload : option part
}.
End Message.

(** The dict [attachment_info] *)
Module Attachment.
Record t := make {
  filename : str;
  mime_type : str;
  attachment_id : option str;
  size : Z
}.
End Attachment.

(** The dict [message_data] *)
Module MessageData.
Record t := make {
  id : str;
  subject : str;
  sender : str;
  date : str;
  attachments : list Attachment.t;
  body_text : str;
  gmail_url : str
}.
End MessageData.

(** The mail service: the answer to the list request for the query
    made of today's date, [days_back] and [query_extra] (its entry
    ['messages'], a list of message ids), to the request for one
    message, and to the request for one attachment (its entry
    ['data']). *)
Record GmailService := {
  messages_list : Z -> str -> Exc (option (list str));
  messages_get : str -> Exc Message.t;
  attachments_get : str -> option str -> Exc (option str)
}.

(** Functions of the standard library that the source calls *)
Record Library := {
  urlsafe_b64decode : str -> Exc bytes;
  quote : str -> Exc str;
  json_dumps : list str -> str
}.

Section Gmail.
Context {rt : PyRuntime}.
Variable lib : Library.

Local Open Scope exc_scope.
Local Open Scope Z_scope.

(** [part.get('body', {}).get(key)] for the two string entries *)
Definition body_data (p : part) : option str :=
  match part_body p with
  | Some b => Body.data b
  | None => None
  end.

Definition body_attachmentId (p : part) : option str :=
  match part_body p with
  | Some b => Body.attachmentId b
  | None => None
  end.

(** *** [search_emails_with_attachments] *)
Definition search_emails_with_attachments (service : GmailService)
    (days_back : Z) (query_extra : str) : Exc (list str) :=
  try_except
    (result <- messages_list service days_back query_extra ;;
     let messages := match result with Some ms => ms | None => [] end in
     Return messages)
    (fun _ => Return []).

(** *** [_extract_attachments]

    [attachments] is the list [message_data['attachments']] that the
    source appends to. *)
Definition attachment_info (p : part) : Exc Attachment.t :=
  filename <- getitem (part_filename p) ;;
  mime_type <- getitem (part_mimeType p) ;;
  body <- getitem (part_body p) ;;
  Return (Attachment.make filename mime_type (Body.attachmentId body)
            (match Body.size body with Some n => n | None => 0 end)).

Fixpoint extract_from_part (p : part) (attachments : list Attachment.t)
  : Exc (list Attachment.t) :=
  attachments <-
    match truthy (part_filename p) with
    | Some _ =>
        info <- attachment_info p ;;
        Return (attachments ++ [info])
    | None => Return attachments
    end ;;
  match part_parts p with
  | Some parts =>
      (fix loop (ps : list part) (attachments : list Attachment.t) :=
         match ps with
         | [] => Return attachments
         | q :: qs =>
             attachments <- extract_from_part q attachments ;;
             loop qs attachments
         end) parts attachments
  | None => Return attachments
  end.

Fixpoint _extract_attachments (parts : list part)
    (attachments : list Attachment.t) : Exc (list Attachment.t) :=
  match parts with
  | [] => Return attachments
  | p :: ps =>
      attachments <- extract_from_part p attachments ;;
      _extract_attachments ps attachments
  end.

(** *** [_extract_single_attachment] *)
Definition _extract_single_attachment (payload : part)
    (attachments : list Attachment.t) : Exc (list Attachment.t) :=
  let filename :=
    match part_filename payload with
    | Some f => f
    | None => u "attachment"
    end in
  mime_type <- getitem (part_mimeType payload) ;;
  body <- getitem (part_body payload) ;;
  Return (attachments ++
          [Attachment.make filename mime_type (Body.attachmentId body)
             (match Body.size body with Some n => n | None => 0 end)]).

(** *** [download_attachment] *)
Definition download_attachment (service : GmailService) (message_id : str)
    (attachment_id : option str) : Exc (option bytes) :=
  try_except
    (entry <- attachments_get service message_id attachment_id ;;
     data <- getitem entry ;;
     decoded <- urlsafe_b64decode lib data ;;
     Return (Some decoded))
    (fun _ => Return None).

(** *** [_extract_body_text] *)

(** The inner function [decode_body_data]: the decoded text, and the
    empty string when [data] is empty or decoding raises *)
Definition decode_body_data (data : str) : str :=
  match data with
  | [] => []
  | _ :: _ =>
      match urlsafe_b64decode lib data with
      | Return decoded => decode_utf8_ignore decoded
      | Raise _ => []
      end
  end.

Definition is_text_type (mime_type : str) : bool :=
  str_eqb mime_type (u "text/plain") || str_eqb mime_type (u "text/html").

(** [part.get('mimeType', '')] *)
Definition mime_or_empty (p : part) : str :=
  match part_mimeType p with
  | Some m => m
  | None => []
  end.

(** The statement under both [if mime_type == ...] tests *)
Definition add_body_data (body_text : str) (p : part) : str :=
  match truthy (body_data p) with
  | Some data => body_text ++ (decode_body_data data ++ newline)
  | None => body_text
  end.

Definition _extract_body_text (payload : part) : str :=
  let body_text := [] in
  let body_text :=
    match truthy (body_data payload) with
    | Some data => decode_body_data data
    | None =>
        match part_parts payload with
        | Some parts =>
            fold_left
              (fun body_text p =>
                 if is_text_type (mime_or_empty p)
                 then add_body_data body_text p
                 else
                   match part_parts p with
                   | Some nested_parts =>
                       fold_left
                         (fun body_text nested_part =>
                            if is_text_type (mime_or_empty nested_part)
                            then add_body_data body_text nested_part
                            else body_text)
                         nested_parts body_text
                   | None => body_text
                   end)
              parts body_text
        | None => body_text
        end
    end in
  strip body_text.

(** *** [_parse_message] *)

(** [next((h['value'] for h in headers if h['name'] == name), '')] *)
Definition header_value (headers : list Header.t) (name : str) : str :=
  match find (fun h => str_eqb (Header.name h) name) headers with
  | Some h => Header.value h
  | None => []
  end.

Definition _parse_message (message : Message.t) : Exc MessageData.t :=
  payload <- getitem (Message.payload message) ;;
  let headers :=
    match part_headers payload with Some hs => hs | None => [] end in
  let subject := header_value headers (u "Subject") in
  let sender := header_value headers (u "From") in
  let date := header_value headers (u "Date") in
  search_query <-
    quote lib (u "subject:" ++ [34%N] ++ slice_to 50 subject ++ [34%N]) ;;
  let gmail_url := u "https://mail.google.com/mail/#search/" ++ search_query in
  let body_text := _extract_body_text payload in
  attachments <-
    match part_parts payload with
    | Some parts => _extract_attachments parts []
    | None =>
        match truthy (body_attachmentId payload) with
        | Some _ => _extract_single_attachment payload []
        | None => Return []
        end
    end ;;
  Return (MessageData.make (Message.id message) subject sender date
            attachments body_text gmail_url).

(** *** [get_message_details] *)
Definition get_message_details (service : GmailService) (message_id : str)
  : Exc (option MessageData.t) :=
  try_except
    (message <- messages_get service message_id ;;
     message_data <- _parse_message message ;;
     Return (Some message_data))
    (fun _ => Return None).

End Gmail.

(** ** State and exceptions together

    A computation that reads and changes a state and may raise; the
    state is kept as it is at the moment of the raise. *)

Definition St (S A : Type) : Type := S -> Exc A * S.

Definition st_ret {S A} (a : A) : St S A := fun s => (Return a, s).

Definition st_bind {S A B} (c : St S A) (f : A -> St S B) : St S B :=
  fun s =>
    match c s with
    | (Return a, s') => f a s'
    | (Raise e, s') => (Raise e, s')
    end.

(** A computation without state *)
Definition st_lift {S A} (c : Exc A) : St S A := fun s => (c, s).

Definition st_modify {S} (f : S -> S) : St S unit :=
  fun s => (Return tt, f s).

(** [try: body except Exception: handler] *)
Definition st_try {S A} (body : St S A) (handler : exn -> St S A) : St S A :=
  fun s =>
    match body s with
    | (Return a, s') => (Return a, s')
    | (Raise e, s') => handler e s'
    end.

(** [for x in l: body x] *)
Fixpoint st_for {S A} (l : list A) (body : A -> St S unit) : St S unit :=
  match l with
  | [] => st_ret tt
  | x :: l' => st_bind (body x) (fun _ => st_for l' body)
  end.

Declare Scope st_scope.
Delimit Scope st_scope with st.
Notation "x <~ c ;; k" := (st_bind c (fun x => k))
  (at level 61, c at next level, right associativity) : st_scope.
Notation "c ;;; k" := (st_bind c (fun _ => k))
  (at level 61, right associativity) : st_scope.

(** ** The database ([database.py])

    A row of [financial_documents] without the two columns that the
    database fills in ([id] and [processed_date]). *)

Module DocRow.
Record t := make {
  message_id : str;
  filename : str;
  sender : str;
  subject : str;
  email_date : str;
  mime_type : option str;
  language : str;
  financial_score : Z;
  text_content : str;
  amounts_found : str;
  keywords_found : str;
  gmail_url : str;
  email_body : str;
  document_type : str
}.
End DocRow.

(** The two tables, and the number of statements run so far *)
Module Store.
Record t := make {
  financial_documents : list DocRow.t;
  scan_history : list (Z * Z * str);
  statements : nat
}.
End Store.

Section Database.
Variable lib : Library.

(** [db_fails n] tells whether the statement number [n] raises (the
    file cannot be opened, the disk is full, ...). *)
Variable db_fails : nat -> bool.

Local Open Scope st_scope.

(** [UNIQUE(message_id, filename)] *)
Definition same_key (a b : DocRow.t) : bool :=
  str_eqb (DocRow.message_id a) (DocRow.message_id b)
  && str_eqb (DocRow.filename a) (DocRow.filename b).

(** [INSERT OR REPLACE INTO financial_documents]: the rows that would
    break the constraint are deleted and the new row is added. *)
Definition insert_or_replace (row : DocRow.t) (table : list DocRow.t)
  : list DocRow.t :=
  filter (fun r => negb (same_key r row)) table ++ [row].

(** One statement inside [with sqlite3.connect(...) as conn]: when it
    raises, the tables are as before. *)
Definition execute (change : Store.t -> Store.t) : St Store.t unit :=
  fun db =>
    let n := Store.statements db in
    if db_fails n
    then (Raise LibraryError,
          Store.make (Store.financial_documents db) (Store.scan_history db)
            (S n))
    else
      let db' := change db in
      (Return tt,
       Store.make (Store.financial_documents db') (Store.scan_history db')
         (S n)).

(** The tuple of values of [save_document] *)
Definition document_row (message_data : MessageData.t)
    (doc_analysis : DocumentAnalysis) (document_type : str) : DocRow.t :=
  DocRow.make
    (MessageData.id message_data)
    (filename doc_analysis)
    (MessageData.sender message_data)
    (MessageData.subject message_data)
    (MessageData.date message_data)
    (mime_type doc_analysis)
    (language doc_analysis)
    (financial_score doc_analysis)
    (text doc_analysis)
    (json_dumps lib (amounts_found doc_analysis))
    (json_dumps lib (keywords_found doc_analysis))
    (MessageData.gmail_url message_data)
    (MessageData.body_text message_data)
    document_type.

(** *** [save_document] *)
Definition save_document (message_data : MessageData.t)
    (doc_analysis : DocumentAnalysis) (document_type : str)
  : St Store.t bool :=
  st_try
    (execute (fun db =>
       Store.make
         (insert_or_replace
            (document_row message_data doc_analysis document_type)
            (Store.financial_documents db))
         (Store.scan_history db) (Store.statements db)) ;;;
     st_ret true)
    (fun _ => st_ret false).

(** *** [save_scan_history] *)
Definition save_scan_history (emails_scanned documents_found : Z)
    (status : str) : St Store.t unit :=
  execute (fun db =>
    Store.make (Store.financial_documents db)
      (Store.scan_history db ++ [(emails_scanned, documents_found, status)])
      (Store.statements db)).

End Database.

(** ** The scanner ([main.py]) *)

(** The database and the two counters of [scan_gmail] *)
Module Scan.
Record t := make {
  db : Store.t;
  documents_found : Z;
  processed_messages : Z
}.
End Scan.

Section Scanner.
Context {rt : PyRuntime}.
Variable caps : Capabilities.
Variable lib : Library.
Variable db_fails : nat -> bool.

Local Open Scope Z_scope.

(** [s.endswith(suffix)] *)
Definition endswith (s suffix : str) : bool :=
  startswith (rev s) (rev suffix).

(** [x in l] for a list of strings *)
Definition list_mem (x : str) (l : list str) : bool :=
  existsb (str_eqb x) l.

Definition supported_types : list str :=
  map u [ "application/pdf";
          "image/jpeg"; "image/jpg"; "image/png"; "image/tiff";
          "text/plain" ]%string.

Definition financial_extensions : list str :=
  map u [ ".pdf"; ".jpg"; ".jpeg"; ".png"; ".tiff"; ".txt" ]%string.

(** *** [_should_process_attachment] *)
Definition _should_process_attachment (attachment : Attachment.t) : bool :=
  let filename := lower (Attachment.filename attachment) in
  let mime_type := Attachment.mime_type attachment in
  if 10 * 1024 * 1024 <? Attachment.size attachment then false
  else if negb (existsb (fun ext => endswith filename ext)
                  financial_extensions)
  then false
  else list_mem mime_type supported_types.

(** *** [_process_attachment] *)
Definition _process_attachment (service : GmailService)
    (message_data : MessageData.t) (attachment : Attachment.t)
  : Exc (option DocumentAnalysis) :=
  try_except
    (file_data <- download_attachment lib service
                    (MessageData.id message_data)
                    (Attachment.attachment_id attachment) ;;
     match file_data with
     | None | Some [] => Return None
     | Some (b :: bs) =>
         process_attachment caps (b :: bs)
           (Attachment.filename attachment)
           (Some (Attachment.mime_type attachment))
     end)%exc
    (fun _ => Return None).

(** *** [scan_gmail] *)

Local Open Scope st_scope.

(** A database operation, run on the database of the scan *)
Definition on_db {A} (c : St Store.t A) : St Scan.t A :=
  fun s =>
    let '(r, db') := c (Scan.db s) in
    (r, Scan.make db' (Scan.documents_found s) (Scan.processed_messages s)).

(** [documents_found += 1] and [processed_messages += 1] *)
Definition count_document : St Scan.t unit :=
  st_modify (fun s =>
    Scan.make (Scan.db s) (Scan.documents_found s + 1)
      (Scan.processed_messages s)).

Definition count_message : St Scan.t unit :=
  st_modify (fun s =>
    Scan.make (Scan.db s) (Scan.documents_found s)
      (Scan.processed_messages s + 1)).

(** The body of [for attachment in message_data['attachments']] *)
Definition scan_attachment (service : GmailService)
    (message_data : MessageData.t) (attachment : Attachment.t)
  : St Scan.t unit :=
  if _should_process_attachment attachment then
    doc_analysis <~
      st_lift (_process_attachment service message_data attachment) ;;
    match doc_analysis with
    | Some d =>
        on_db (save_document lib db_fails message_data d (u "attachment")) ;;;
        count_document
    | None => st_ret tt
    end
  else st_ret tt.

(** The statements after the loop over the attachments *)
Definition scan_body_text (message_data : MessageData.t) : St Scan.t unit :=
  match MessageData.body_text message_data with
  | [] => st_ret tt
  | _ :: _ =>
      email_analysis <~
        st_lift (analyze_email_content caps
                   (MessageData.body_text message_data)
                   (MessageData.subject message_data)) ;;
      match email_analysis with
      | Some d =>
          if match MessageData.attachments message_data with
             | [] => true
             | _ :: _ => false
             end
             || (25 <? financial_score d)
          then
            on_db (save_document lib db_fails message_data d
                     (u "email_content")) ;;;
            count_document
          else st_ret tt
      | None => st_ret tt
      end
  end.

(** The body of [for message in messages], a [try] whose handler goes
    on to the next message *)
Definition scan_message (service : GmailService) (message_id : str)
  : St Scan.t unit :=
  st_try
    (message_data <~ st_lift (get_message_details lib service message_id) ;;
     match message_data with
     | None => st_ret tt
     | Some message_data =>
         count_message ;;;
         st_for (MessageData.attachments message_data)
           (scan_attachment service message_data) ;;;
         scan_body_text message_data
     end)
    (fun _ => st_ret tt).

(** [scan_gmail] returns [None] when there is no client, and the number
    of documents otherwise.  The counters start at 0. *)
Definition scan_gmail (gmail_client : option GmailService) (days_back : Z)
  : St Store.t (option Z) :=
  fun db =>
    match gmail_client with
    | None => (Return None, db)
    | Some service =>
        let run : St Scan.t Z :=
          messages <~
            st_lift (search_emails_with_attachments service days_back []) ;;
          st_for messages (scan_message service) ;;;
          (fun s =>
             on_db (save_scan_history db_fails (Scan.processed_messages s)
                      (Scan.documents_found s) (u "completed")) s) ;;;
          (fun s => (Return (Scan.documents_found s), s)) in
        let '(r, s) := run (Scan.make db 0 0) in
        (match r with
         | Return n => Return (Some n)
         | Raise e => Raise e
         end,
         Scan.db s)
    end.

End Scanner.

(** ** The web application ([web_app.py])

    [run_scan] is modelled as it runs on its own: the dict
    [scanning_status] is a value that each assignment replaces, and the
    result is its last value.  What other threads read in between is
    not modelled. *)

(** The dict [scanning_status]; [documents_found] holds what
    [scan_gmail] returned, which may be [None] *)
Module Status.
Record t := make {
  is_scanning : bool;
  progress : str;
  emails_processed : Z;
  documents_found : option Z
}.
End Status.

Section WebApp.
Context {rt : PyRuntime}.
Variable caps : Capabilities.
Variable lib : Library.
Variable db_fails : nat -> bool.

(** [GmailClient()]: the client, or the exception of the sign-in *)
Variable new_client : Exc GmailService.

(** [str(e)] *)
Variable exn_text : exn -> str.

Local Open Scope Z_scope.

(** [str(n)] for an integer, and [{v}] in an f-string for a value that
    is an integer or [None] *)
Definition str_of_int (n : Z) : str :=
  u (NilZero.string_of_int (Z.to_int n)).

Definition format_value (v : option Z) : str :=
  match v with
  | Some n => str_of_int n
  | None => u "None"
  end.

(** *** [ReceiptScanner.initialize]

    The answer, and [self.gmail_client] afterwards: both handlers
    return [False] and leave the attribute as it was. *)
Definition initialize (gmail_client : option GmailService)
  : bool * option GmailService :=
  match new_client with
  | Return client => (true, Some client)
  | Raise _ => (false, gmail_client)
  end.

(** The texts of the status.  A long literal of the source is written
    here as its pieces one after the other. *)
Definition text_initialising : str := u "Инициализация...".

Definition text_sign_in_failed : str :=
  u "Ошибка " ++ u "инициализации " ++ u "Gmail API".

Definition text_searching (days : Z) : str :=
  u "Поиск писем " ++ u "за последние " ++ str_of_int days ++ u " дней...".

Definition text_done (documents_found : option Z) : str :=
  u "Сканирование " ++ u "завершено! " ++ u "Найдено "
  ++ format_value documents_found ++ u " документов.".

Definition text_error (e : exn) : str := u "Ошибка: " ++ exn_text e.

(** *** [run_scan]

    The state is the status, the client of the scanner and the
    database. *)
Definition run_scan (days : Z) (status : Status.t)
    (gmail_client : option GmailService) (db : Store.t)
  : Status.t * option GmailService * Store.t :=
  let status := Status.make true (Status.progress status)
                  (Status.emails_processed status)
                  (Status.documents_found status) in
  let status := Status.make (Status.is_scanning status)
                  text_initialising
                  (Status.emails_processed status)
                  (Status.documents_found status) in
  let status := Status.make (Status.is_scanning status)
                  (Status.progress status) 0
                  (Status.documents_found status) in
  let status := Status.make (Status.is_scanning status)
                  (Status.progress status)
                  (Status.emails_processed status) (Some 0) in
  let finally (status : Status.t) : Status.t :=
    Status.make false (Status.progress status)
      (Status.emails_processed status) (Status.documents_found status) in
  let '(ok, gmail_client) := initialize gmail_client in
  if negb ok then
    let status := Status.make (Status.is_scanning status)
                    text_sign_in_failed
                    (Status.emails_processed status)
                    (Status.documents_found status) in
    let status := Status.make false (Status.progress status)
                    (Status.emails_processed status)
                    (Status.documents_found status) in
    (finally status, gmail_client, db)
  else
    let status := Status.make (Status.is_scanning status)
                    (text_searching days)
                    (Status.emails_processed status)
                    (Status.documents_found status) in
    match scan_gmail caps lib db_fails gmail_client days db with
    | (Return documents_found, db) =>
        let status := Status.make (Status.is_scanning status)
                        (Status.progress status)
                        (Status.emails_processed status) documents_found in
        let status := Status.make (Status.is_scanning status)
                        (text_done documents_found)
                        (Status.emails_processed status)
                        (Status.documents_found status) in
        (finally status, gmail_client, db)
    | (Raise e, db) =>
        let status := Status.make (Status.is_scanning status)
                        (text_error e)
                        (Status.emails_processed status)
                        (Status.documents_found status) in
        (finally status, gmail_client, db)
    end.

End WebApp.

(** ** Further notions *)

(** [m] occurs in [s] as a run of consecutive characters. *)
Definition substring (m s : str) : Prop :=
  exists pre post, s = pre ++ m ++ post.

(** The least number of characters that a match of [r] takes *)
Fixpoint min_len (r : regex) : nat :=
  match r with
  | Empty => 0
  | One _ => 1
  | Cat r1 r2 => min_len r1 + min_len r2
  | Alt r1 r2 => Nat.min (min_len r1) (min_len r2)
  | Rep _ lo _ => lo
  end.

(** A keyword of the lexicon, from the list of [lang] or the English
    list, that occurs in [text_lower] *)
Definition lexicon_hit (text_lower lang keyword : str) : Prop :=
  (In keyword (keywords_of lang) \/ In keyword (keywords_of (u "en")))
  /\ contains keyword text_lower = true.

(** *** Notions for the Gmail client *)

(** A part followed by all the parts below it, in the order of the
    tree; and the same for a list of parts *)
Fixpoint part_and_descendants (p : part) : list part :=
  p ::
  match part_parts p with
  | Some parts =>
      (fix below (ps : list part) : list part :=
         match ps with
         | [] => []
         | q :: qs => part_and_descendants q ++ below qs
         end) parts
  | None => []
  end.

Definition flatten_parts (parts : list part) : list part :=
  flat_map part_and_descendants parts.

(** A part with a file name that is not empty *)
Definition named (p : part) : bool :=
  match truthy (part_filename p) with
  | Some _ => true
  | None => false
  end.

(** A part that has the entries ['mimeType'] and ['body'] *)
Definition complete (p : part) : bool :=
  match part_mimeType p, part_body p with
  | Some _, Some _ => true
  | _, _ => false
  end.

(** The attachment that a named and complete part stands for *)
Definition info_of (p : part) : Attachment.t :=
  Attachment.make
    (match part_filename p with Some f => f | None => [] end)
    (match part_mimeType p with Some m => m | None => [] end)
    (body_attachmentId p)
    (match part_body p with
     | Some b => match Body.size b with Some n => n | None => 0%Z end
     | None => 0%Z
     end).

(** The part with everything more than [depth] levels below it cut *)
Fixpoint prune (depth : nat) (p : part) : part :=
  Part (part_headers p) (part_filename p) (part_mimeType p) (part_body p)
    (match depth with
     | O => None
     | S d => option_map (map (prune d)) (part_parts p)
     end).

(** *** Notions for the database and the scanner *)

Definition row_key (r : DocRow.t) : str * str :=
  (DocRow.message_id r, DocRow.filename r).

(** No two rows with the same message and file name *)
Definition unique_keys (table : list DocRow.t) : Prop :=
  NoDup (map row_key table).

Section ScanNotions.
Context {rt : PyRuntime}.
Variable caps : Capabilities.
Variable lib : Library.

(** A row written for an attachment of a message *)
Definition attachment_row (row : DocRow.t) : Prop :=
  exists message_data attachment d,
    row = document_row lib message_data d (u "attachment") /\
    In attachment (MessageData.attachments message_data) /\
    _should_process_attachment attachment = true /\
    filename d = Attachment.filename attachment /\
    mime_type d = Some (Attachment.mime_type attachment) /\
    (5 <= financial_score d <= 60)%Z.

(** A row written for the body of a message *)
Definition email_row (row : DocRow.t) : Prop :=
  exists message_data d,
    row = document_row lib message_data d (u "email_content") /\
    analyze_email_content caps (MessageData.body_text message_data)
      (MessageData.subject message_data) = Return (Some d) /\
    MessageData.body_text message_data <> [] /\
    (MessageData.attachments message_data = [] \/
     (25 < financial_score d)%Z).

(** What a stretch of a scan does to its state: every statement it ran
    was counted as a document, at most [budget] messages were counted,
    the history was not touched, every row of the table was there
    before or is a row of the scan, and the table grew by no more than
    the number of statements. *)
Record progress (budget : nat) (s s' : Scan.t) : Prop := {
  pr_statements :
    Store.statements (Scan.db s) <= Store.statements (Scan.db s');
  pr_documents :
    (Scan.documents_found s' - Scan.documents_found s =
     Z.of_nat (Store.statements (Scan.db s'))
     - Z.of_nat (Store.statements (Scan.db s)))%Z;
  pr_processed :
    (Scan.processed_messages s <= Scan.processed_messages s'
     <= Scan.processed_messages s + Z.of_nat budget)%Z;
  pr_history :
    Store.scan_history (Scan.db s') = Store.scan_history (Scan.db s);
  pr_rows :
    forall row, In row (Store.financial_documents (Scan.db s')) ->
      In row (Store.financial_documents (Scan.db s))
      \/ attachment_row row \/ email_row row;
  pr_length :
    List.length (Store.financial_documents (Scan.db s')) <=
    List.length (Store.financial_documents (Scan.db s))
    + (Store.statements (Scan.db s') - Store.statements (Scan.db s));
  pr_keys :
    unique_keys (Store.financial_documents (Scan.db s)) ->
    unique_keys (Store.financial_documents (Scan.db s'))
}.

End ScanNotions.

(** ** A concrete library, mailbox and database

    Used to run the scanner on examples. *)

Local Open Scope N_scope.

(** [base64.urlsafe_b64decode] on padded input: four characters of the
    alphabet give three bytes, and the last group may end in one or two
    [=].  Anything else raises. *)
Definition b64_value (c : char) : option N :=
  if in_range 65 90 c then Some (c - 65)
  else if in_range 97 122 c then Some (c - 71)
  else if in_range 48 57 c then Some (c + 4)
  else if (c =? 45) || (c =? 43) then Some 62
  else if (c =? 95) || (c =? 47) then Some 63
  else None.

Definition b64_group (a b c d : char) : option (list N) :=
  match b64_value a, b64_value b with
  | Some x, Some y =>
      let first := x * 4 + y / 16 in
      if (c =? 61) && (d =? 61) then Some [first]
      else
        match b64_value c with
        | Some z =>
            let second := (y mod 16) * 16 + z / 4 in
            if d =? 61 then Some [first; second]
            else
              match b64_value d with
              | Some w => Some [first; second; (z mod 4) * 64 + w]
              | None => None
              end
        | None => None
        end
  | _, _ => None
  end.

Fixpoint b64_groups (s : str) : option (list N) :=
  match s with
  | [] => Some []
  | a :: b :: c :: d :: rest =>
      match b64_group a b c d with
      | Some [x; y; z] =>
          match b64_groups rest with
          | Some more => Some (x :: y :: z :: more)
          | None => None
          end
      | Some short =>
          match rest with
          | [] => Some short
          | _ :: _ => None
          end
      | None => None
      end
  | _ => None
  end.

Definition byte_of (n : N) : byte :=
  match Byte.of_N n with
  | Some b => b
  | None => x00
  end.

Definition b64decode (s : str) : Exc bytes :=
  match b64_groups s with
  | Some values => Return (map byte_of values)
  | None => Raise LibraryError
  end.

(** UTF-8 encoding of one character; a surrogate has none. *)
Definition utf8_encode_char (c : char) : option (list N) :=
  if c <? 128 then Some [c]
  else if c <? 2048 then Some [192 + c / 64; 128 + c mod 64]
  else if c <? 65536 then
    if in_range 55296 57343 c then None
    else Some [224 + c / 4096; 128 + (c / 64) mod 64; 128 + c mod 64]
  else Some [240 + c / 262144; 128 + (c / 4096) mod 64;
             128 + (c / 64) mod 64; 128 + c mod 64].

Definition hex_digit (upper : bool) (n : N) : char :=
  if n <? 10 then 48 + n else (if upper then 55 else 87) + n.

(** [urllib.parse.quote] with its default safe character [/] *)
Definition quote_byte (b : N) : str :=
  if in_range 65 90 b || in_range 97 122 b || in_range 48 57 b
     || (b =? 95) || (b =? 46) || (b =? 45) || (b =? 126) || (b =? 47)
  then [b]
  else [37; hex_digit true (b / 16); hex_digit true (b mod 16)].

Fixpoint url_quote (s : str) : Exc str :=
  match s with
  | [] => Return []
  | c :: s' =>
      match utf8_encode_char c, url_quote s' with
      | Some encoded, Return rest =>
          Return (flat_map quote_byte encoded ++ rest)
      | None, _ => Raise LibraryError
      | _, Raise e => Raise e
      end
  end.

(** [json.dumps] of a list of strings, with its default [ensure_ascii] *)
Definition json_u (n : N) : str :=
  [92; 117; hex_digit false (n / 4096); hex_digit false ((n / 256) mod 16);
   hex_digit false ((n / 16) mod 16); hex_digit false (n mod 16)].

Definition json_char (c : char) : str :=
  if c =? 34 then [92; 34]
  else if c =? 92 then [92; 92]
  else if c =? 10 then [92; 110]
  else if c =? 13 then [92; 114]
  else if c =? 9 then [92; 116]
  else if c =? 12 then [92; 102]
  else if c =? 8 then [92; 98]
  else if in_range 32 126 c then [c]
  else if c <? 65536 then json_u c
  else json_u (55296 + (c - 65536) / 1024)
       ++ json_u (56320 + (c - 65536) mod 1024).

Definition json_string (s : str) : str :=
  [34] ++ flat_map json_char s ++ [34].

Fixpoint json_items (l : list str) : str :=
  match l with
  | [] => []
  | [x] => json_string x
  | x :: l' => json_string x ++ [44; 32] ++ json_items l'
  end.

Definition json_list (l : list str) : str := [91] ++ json_items l ++ [93].

Local Close Scope N_scope.

Definition table_library : Library :=
  {| urlsafe_b64decode := b64decode;
     quote := url_quote;
     json_dumps := json_list |}.

(** A mailbox with one message: a text part, and a text file attached
    under the id [a1]. *)
Definition invoice_message : Message.t :=
  Message.make (u "m1")
    (Some (Part
       (Some [ Header.make (u "From") (u "shop@example.com");
               Header.make (u "Subject") (u "Invoice #123");
               Header.make (u "Date") (u "Mon, 1 Jan 2024") ])
       (Some []) (Some (u "multipart/mixed")) None
       (Some
          [ Part None (Some []) (Some (u "text/plain"))
              (Some (Body.make None (Some 23%Z)
                       (Some (u "UGxlYXNlIHBheSA1LjAwIEVVUiBub3c="))))
              None;
            Part None (Some (u "Bill.TXT")) (Some (u "text/plain"))
              (Some (Body.make (Some (u "a1")) (Some 23%Z) None))
              None ]))).

Definition one_message_mailbox : GmailService :=
  {| messages_list := fun _ _ => Return (Some [u "m1"]);
     messages_get := fun id =>
       if str_eqb id (u "m1") then Return invoice_message
       else Raise LibraryError;
     attachments_get := fun id attachment_id =>
       Return (Some (u "SW52b2ljZSB0b3RhbDogNS4wMCBFVVI=")) |}.

Definition empty_store : Store.t := Store.make [] [] 0.

Definition always_fails : nat -> bool := fun _ => true.
Definition never_fails : nat -> bool := fun _ => false.

(** The attachment of the mailbox, and a part with a file name but
    without a body *)
Definition bill_attachment : Attachment.t :=
  Attachment.make (u "Bill.TXT") (u "text/plain") (Some (u "a1")) 23.

Definition part_without_body : part :=
  Part None (Some (u "scan.pdf")) (Some (u "application/pdf")) None None.

(** A body with five links that hold no keyword of the English list *)
Definition five_links : str :=
  u ("http://a.b/zahlung1 http://a.b/zahlung2 http://a.b/zahlung3 " ++
     "http://a.b/zahlung4 http://a.b/zahlung5")%string.

(** The message of the mailbox as [_parse_message] reads it *)
Definition invoice_message_data : MessageData.t :=
  MessageData.make (u "m1") (u "Invoice #123") (u "shop@example.com")
    (u "Mon, 1 Jan 2024") [bill_attachment] (u "Please pay 5.00 EUR now")
    (u "https://mail.google.com/mail/#search/subject%3A%22Invoice%20%23123%22").

(** A mailbox whose message has, beside a good attachment, a part with
    a file name and no body *)
Definition broken_message : Message.t :=
  Message.make (u "m2")
    (Some (Part None None (Some (u "multipart/mixed")) None
       (Some
          [ Part None (Some (u "Bill.TXT")) (Some (u "text/plain"))
              (Some (Body.make (Some (u "a1")) (Some 23%Z) None)) None;
            Part None None (Some (u "multipart/related")) None
              (Some [part_without_body]) ]))).

Definition broken_mailbox : GmailService :=
  {| messages_list := fun _ _ => Return (Some [u "m2"]);
     messages_get := fun _ => Return broken_message;
     attachments_get := fun _ _ => Raise LibraryError |}.

(** A payload whose text lies three levels down *)
Definition deep_text_part : part :=
  Part None None (Some (u "text/plain"))
    (Some (Body.make None None (Some (u "SW52b2ljZSB0b3RhbDogNS4wMCBFVVI="))))
    None.

Definition wrap (p : part) : part :=
  Part None None (Some (u "multipart/mixed")) None (Some [p]).

(** A mailbox whose message has two attachments of the same name *)
Definition twin_message : Message.t :=
  Message.make (u "m3")
    (Some (Part None None (Some (u "multipart/mixed")) None
       (Some
          [ Part None (Some (u "Bill.TXT")) (Some (u "text/plain"))
              (Some (Body.make (Some (u "a1")) (Some 23%Z) None)) None;
            Part None (Some (u "Bill.TXT")) (Some (u "text/plain"))
              (Some (Body.make (Some (u "a2")) (Some 23%Z) None)) None ]))).

Definition twin_mailbox : GmailService :=
  {| messages_list := fun _ _ => Return (Some [u "m3"]);
     messages_get := fun _ => Return twin_message;
     attachments_get := fun _ _ =>
       Return (Some (u "SW52b2ljZSB0b3RhbDogNS4wMCBFVVI=")) |}.

Definition idle_status : Status.t := Status.make false [] 0 (Some 0%Z).

Definition plain_text : exn -> str := fun _ => u "disk I/O error".

(** ** Properties of the model *)

Section Properties.
Context {rt : PyRuntime}.
Variable caps : Capabilities.

Local Open Scope Z_scope.

(** *** Slices *)

Lemma slice_to_length {A} (n : nat) (l : list A) :
  (List.length (slice_to n l) <= n)%nat.
Proof. unfold slice_to. apply firstn_le_length. Qed.

(** *** What [_analyze_financial_content] returns *)

Lemma analysis_score (text : str) :
  Analysis.score (_analyze_financial_content caps text) =
    Z.min (Z.of_nat (snd (scan_keywords (lower text)
                            (detected_language caps text))) * 2) 20
    + Z.min (Z.of_nat (List.length (find_amounts text)) * 5) 20
    + bonus invoice_pattern (lower text)
    + bonus receipt_pattern (lower text).
Proof.
  unfold _analyze_financial_content, bonus.
  destruct (scan_keywords _ _) as [found n]; simpl.
  destruct (search false invoice_pattern _);
    destruct (search false receipt_pattern _); lia.
Qed.

Lemma analysis_is_financial (text : str) :
  Analysis.is_financial (_analyze_financial_content caps text) =
    (15 <=? Analysis.score (_analyze_financial_content caps text))
    || (0 <? List.length (find_amounts text))%nat.
Proof.
  unfold _analyze_financial_content.
  destruct (scan_keywords _ _) as [found n]; simpl.
  f_equal.
  destruct (find_amounts text); reflexivity.
Qed.

Lemma analysis_keywords (text : str) :
  Analysis.keywords (_analyze_financial_content caps text) =
    slice_to 5 (fst (scan_keywords (lower text) (detected_language caps text))).
Proof.
  unfold _analyze_financial_content.
  destruct (scan_keywords _ _) as [found n]; reflexivity.
Qed.

Lemma analysis_amounts (text : str) :
  Analysis.amounts (_analyze_financial_content caps text) =
    slice_to 3 (find_amounts text).
Proof.
  unfold _analyze_financial_content.
  destruct (scan_keywords _ _) as [found n]; reflexivity.
Qed.

Lemma analysis_language (text : str) :
  Analysis.language (_analyze_financial_content caps text) =
    detected_language caps text.
Proof.
  unfold _analyze_financial_content.
  destruct (scan_keywords _ _) as [found n]; reflexivity.
Qed.

Lemma bonus_range (p : regex) (s : str) : 0 <= bonus p s <= 10.
Proof. unfold bonus. destruct (search false p s); lia. Qed.

Lemma analysis_score_range (text : str) :
  0 <= Analysis.score (_analyze_financial_content caps text) <= 60.
Proof.
  rewrite analysis_score.
  pose proof (bonus_range invoice_pattern (lower text)).
  pose proof (bonus_range receipt_pattern (lower text)).
  lia.
Qed.

Lemma financial_score_at_least_5 (text : str) :
  Analysis.is_financial (_analyze_financial_content caps text) = true ->
  5 <= Analysis.score (_analyze_financial_content caps text).
Proof.
  rewrite analysis_is_financial. intros H.
  apply orb_true_iff in H. destruct H as [H | H].
  - apply Z.leb_le in H. lia.
  - apply Nat.ltb_lt in H. rewrite analysis_score.
    pose proof (bonus_range invoice_pattern (lower text)).
    pose proof (bonus_range receipt_pattern (lower text)).
    lia.
Qed.

(** *** What the two entry points return *)

Lemma process_attachment_result (file_data : bytes) (name : str)
    (mime : option str) (d : DocumentAnalysis) :
  process_attachment caps file_data name mime = Return (Some d) ->
  exists txt,
    _extract_text caps file_data mime = Return txt /\
    txt <> [] /\
    Analysis.is_financial (_analyze_financial_content caps txt) = true /\
    d = {| filename := name;
           mime_type := mime;
           text := slice_to 1000 txt;
           language := Analysis.language (_analyze_financial_content caps txt);
           financial_score :=
             Analysis.score (_analyze_financial_content caps txt);
           amounts_found :=
             Analysis.amounts (_analyze_financial_content caps txt);
           keywords_found :=
             Analysis.keywords (_analyze_financial_content caps txt) |}.
Proof.
  unfold process_attachment. intros H.
  destruct (_extract_text caps file_data mime) as [txt | e];
    cbn [bind try_except] in H; [| discriminate].
  destruct txt as [| c txt']; [discriminate |].
  destruct (Analysis.is_financial _) eqn:Hfin; [| discriminate].
  exists (c :: txt'). cbn [try_except] in H.
  repeat split; congruence.
Qed.

Lemma analyze_email_content_result (body subject : str)
    (d : DocumentAnalysis) :
  analyze_email_content caps body subject = Return (Some d) ->
  let full_text := subject ++ newline ++ body in
  let a := _analyze_financial_content caps full_text in
  let links := _extract_financial_links body in
  strip full_text <> [] /\
  Analysis.is_financial a = true /\
  d = {| filename := u "email_content";
         mime_type := Some (u "text/html");
         text := slice_to 1000 full_text;
         language := Analysis.language a;
         financial_score :=
           Z.min (Analysis.score a + Z.of_nat (List.length links) * 3) 100;
         amounts_found := Analysis.amounts a;
         keywords_found :=
           Analysis.keywords a ++ map link_label (slice_to 3 links) |}.
Proof.
  unfold analyze_email_content. intros H. cbv zeta.
  destruct (strip (subject ++ newline ++ body)) as [| c rest];
    [discriminate |].
  split; [discriminate |].
  destruct (_extract_financial_links body) as [| l links];
    cbn [Analysis.is_financial] in H.
  - destruct (Analysis.is_financial _) eqn:Hfin; [| discriminate].
    split; [reflexivity |].
    cbn [try_except] in H. injection H as <-.
    change (slice_to 3 (@nil str)) with (@nil str).
    cbn [List.length map Z.of_nat Z.mul].
    rewrite app_nil_r, Z.add_0_r. reflexivity.
  - destruct (Analysis.is_financial _) eqn:Hfin; [| discriminate].
    split; [reflexivity |].
    cbn [try_except] in H. injection H as <-. reflexivity.
Qed.

(** *** Loops that extend a list *)

Lemma fold_left_extend {A B} (f : B -> list A) (l : list B) (init : list A) :
  fold_left (fun acc x => acc ++ f x) l init = init ++ flat_map f l.
Proof.
  revert init. induction l as [| x l IH]; intros init; cbn [fold_left flat_map].
  - now rewrite app_nil_r.
  - rewrite IH. now rewrite app_assoc.
Qed.

Lemma find_amounts_flat_map (txt : str) :
  find_amounts txt =
    flat_map (fun pattern => findall true pattern txt) amount_patterns.
Proof. unfold find_amounts. now rewrite fold_left_extend. Qed.

Lemma extract_links_length (txt : str) :
  List.length (_extract_financial_links txt) =
    List.length (nodup str_eq_dec (link_matches txt)).
Proof.
  unfold _extract_financial_links, link_matches.
  rewrite fold_left_extend. cbn [app].
  apply Permutation_length, list_of_set_perm.
Qed.

Lemma flat_map_nil_iff {A B} (f : A -> list B) (l : list A) :
  flat_map f l = [] <-> forall x, In x l -> f x = [].
Proof.
  induction l as [| a l IH]; cbn [flat_map].
  - split; [intros _ x [] | reflexivity].
  - split.
    + intros H x [<- | Hx].
      * now apply app_eq_nil in H.
      * apply app_eq_nil in H. now apply IH.
    + intros H. rewrite (H a (or_introl eq_refl)). cbn [app].
      apply IH. intros x Hx. apply H. now right.
Qed.

(** *** Searching and finding all matches agree *)

Lemma findall_nil_iff (ic : bool) (r : regex) (s : str) :
  findall ic r s = [] <-> search ic r s = false.
Proof.
  unfold findall. induction s as [| c s IH]; cbn [findall_from search].
  - destruct (match_len ic r []); split; congruence.
  - destruct (match_len ic r (c :: s)) as [[| n] |].
    + split; discriminate.
    + split; discriminate.
    + exact IH.
Qed.

Lemma some_amount_iff (txt : str) :
  (exists pattern, In pattern amount_patterns /\
                   search true pattern txt = true)
  <-> find_amounts txt <> [].
Proof.
  rewrite find_amounts_flat_map. split.
  - intros (p & Hin & Hs) Hnil.
    rewrite flat_map_nil_iff in Hnil. specialize (Hnil p Hin).
    apply findall_nil_iff in Hnil. congruence.
  - intros Hne.
    destruct (existsb (fun p => search true p txt) amount_patterns) eqn:E.
    + apply existsb_exists in E. exact E.
    + exfalso. apply Hne. apply flat_map_nil_iff. intros p Hin.
      apply findall_nil_iff.
      destruct (search true p txt) eqn:Hs; [| reflexivity].
      assert (existsb (fun p => search true p txt) amount_patterns = true)
        by (apply existsb_exists; eauto).
      congruence.
Qed.

(** *** White space *)

Lemma dropwhile_nil_iff {A} (p : A -> bool) (l : list A) :
  dropwhile p l = [] <-> forallb p l = true.
Proof.
  induction l as [| x l IH]; cbn [dropwhile forallb].
  - tauto.
  - destruct (p x); cbn [andb]; [exact IH | split; discriminate].
Qed.

Lemma dropwhile_head {A} (p : A -> bool) (l : list A) (x : A) (l' : list A) :
  dropwhile p l = x :: l' -> p x = false.
Proof.
  induction l as [| y l IH]; cbn [dropwhile]; [discriminate |].
  destruct (p y) eqn:E; [exact IH |].
  intros H. injection H as <- _. exact E.
Qed.

Lemma strip_nil_iff (s : str) :
  strip s = [] <-> whitespace_only s = true.
Proof.
  unfold strip, whitespace_only. split.
  - intros H.
    assert (Hr : dropwhile isspace (rev (dropwhile isspace s)) = []).
    { rewrite <- (rev_involutive (dropwhile _ (rev _))). now rewrite H. }
    apply dropwhile_nil_iff in Hr.
    destruct (dropwhile isspace s) as [| x l] eqn:E.
    + now apply dropwhile_nil_iff.
    + apply dropwhile_head in E.
      rewrite forallb_forall in Hr.
      rewrite (Hr x) in E; [discriminate |].
      apply in_rev. rewrite rev_involutive. now left.
  - intros H. apply dropwhile_nil_iff in H. rewrite H. reflexivity.
Qed.

(** *** The keyword loops *)

Lemma scan_keyword_list_spec (text_lower : str) (kws found : list str)
    (n : nat) :
  scan_keyword_list text_lower kws (found, n) =
    (found ++ matched text_lower kws, (n + occurrences text_lower kws)%nat).
Proof.
  unfold scan_keyword_list, occurrences, matched.
  revert found n.
  induction kws as [| kw kws IH]; intros found n; cbn [fold_left filter].
  - cbn [map list_sum]. now rewrite app_nil_r, Nat.add_0_r.
  - destruct (contains kw text_lower).
    + rewrite IH. cbn [map]. unfold list_sum. cbn [fold_right].
      rewrite <- app_assoc. cbn [app]. f_equal. lia.
    + apply IH.
Qed.

Lemma scan_keywords_spec (text_lower lang : str) :
  scan_keywords text_lower lang =
    (matched text_lower (keywords_of lang)
       ++ matched text_lower (keywords_of (u "en")),
     (occurrences text_lower (keywords_of lang)
      + occurrences text_lower (keywords_of (u "en")))%nat).
Proof.
  unfold scan_keywords, keywords_of. cbn [fold_left].
  assert (Hnone : forall tl, matched tl [] = [] /\ occurrences tl [] = 0%nat)
    by (intros; split; reflexivity).
  destruct (dict_get financial_keywords lang) as [kws1 |];
    destruct (dict_get financial_keywords (u "en")) as [kws2 |];
    rewrite ?scan_keyword_list_spec; cbn [app Nat.add];
    rewrite ?scan_keyword_list_spec;
    rewrite ?(proj1 (Hnone text_lower)), ?(proj2 (Hnone text_lower)),
            ?app_nil_r, ?Nat.add_0_r;
    reflexivity.
Qed.

(** *** The language *)

Lemma en_in_lexicon : dict_mem financial_keywords (u "en") = true.
Proof. vm_compute. reflexivity. Qed.

Lemma detected_language_is_key (txt : str) :
  dict_mem financial_keywords (detected_language caps txt) = true.
Proof.
  unfold detected_language.
  destruct (detect caps txt) as [l | e]; [| exact en_in_lexicon].
  destruct (dict_mem financial_keywords l) eqn:E; cbn [negb];
    [exact E | exact en_in_lexicon].
Qed.

(** *** Reading a PDF *)

Lemma pdf_loop_raise (texts : list str) (e : exn) (rest : list (Exc str))
    (acc : str) :
  pdf_loop (map Return texts ++ Raise e :: rest) acc =
    (acc ++ pages_text texts, Raise e).
Proof.
  revert acc. unfold pages_text.
  induction texts as [| t texts IH]; intros acc;
    cbn [map app pdf_loop List.concat].
  - now rewrite app_nil_r.
  - rewrite IH. unfold newline. now rewrite <- app_assoc.
Qed.

Lemma pdf_loop_all (texts : list str) (acc : str) :
  pdf_loop (map Return texts) acc = (acc ++ pages_text texts, Return tt).
Proof.
  revert acc. unfold pages_text.
  induction texts as [| t texts IH]; intros acc;
    cbn [map app pdf_loop List.concat].
  - now rewrite app_nil_r.
  - rewrite IH. unfold newline. now rewrite <- app_assoc.
Qed.

Lemma extract_from_pdf_returns (file_data : bytes) :
  exists s, _extract_from_pdf caps file_data = Return s.
Proof.
  unfold _extract_from_pdf.
  destruct (pdf_pages caps file_data) as [pages | e].
  - destruct (pdf_loop pages []) as [txt o]. now exists txt.
  - now exists [].
Qed.

Lemma extract_from_image_returns (file_data : bytes) :
  exists s, _extract_from_image caps file_data = Return s.
Proof.
  unfold _extract_from_image.
  destruct (image_to_string caps file_data) as [s | e]; cbn [try_except];
    eauto.
Qed.

Lemma str_eqb_refl (a : str) : str_eqb a a = true.
Proof.
  induction a as [| c a IH]; cbn [str_eqb]; [reflexivity |].
  unfold char_eqb. now rewrite N.eqb_refl.
Qed.

Lemma try_except_returns {A} (body : Exc A) (fallback : A) :
  exists a, try_except body (fun _ => Return fallback) = Return a.
Proof. destruct body as [a | e]; cbn [try_except]; eauto. Qed.

(** *** The decision *)

(** C1: for every text, [is_financial] is [score >= 15] or "at least one
    amount matched", where the amounts are counted before the list is cut
    to three; so a text in which some amount pattern matches is financial
    whatever its score. *)
Theorem is_financial_decision (txt : str) :
  Analysis.is_financial (_analyze_financial_content caps txt) =
    (15 <=? Analysis.score (_analyze_financial_content caps txt))
    || (0 <? List.length (find_amounts txt))%nat
  /\ Analysis.amounts (_analyze_financial_content caps txt) =
       slice_to 3 (find_amounts txt)
  /\ ((exists pattern, In pattern amount_patterns /\
                       search true pattern txt = true) ->
      Analysis.is_financial (_analyze_financial_content caps txt) = true).
Proof.
  split; [apply analysis_is_financial |].
  split; [apply analysis_amounts |].
  intros H. apply some_amount_iff in H.
  rewrite analysis_is_financial.
  destruct (find_amounts txt); [congruence |].
  apply orb_true_r.
Qed.

(** *** The keyword loops *)

(** C2, as amended: when the detected language is not English, the
    language's keyword list is scanned and then the English list, each
    once and in list order; every keyword of a scanned list that occurs
    in the lower-cased text is appended to the matches and its
    occurrences are added to the count, once for each list that holds
    it; [keywords_found] is the first five of the matches.  Nothing
    removes duplicates.  The case of English as the detected language,
    in which the loop meets the English list twice, is left aside. *)
Theorem keywords_scanned_list_by_list (txt : str) :
  detected_language caps txt <> u "en" ->
  let text_lower := lower txt in
  let own := keywords_of (detected_language caps txt) in
  let english := keywords_of (u "en") in
  scan_keywords text_lower (detected_language caps txt) =
    (matched text_lower own ++ matched text_lower english,
     (occurrences text_lower own + occurrences text_lower english)%nat)
  /\ Analysis.keywords (_analyze_financial_content caps txt) =
       slice_to 5 (matched text_lower own ++ matched text_lower english).
Proof.
  intros _. cbv zeta. split.
  - apply scan_keywords_spec.
  - rewrite analysis_keywords, scan_keywords_spec. reflexivity.
Qed.

(** *** The links of an e-mail body *)

(** C3, as amended: in e-mail mode the links add three points for each
    distinct link, with no cap on their number; only the labels added to
    the keywords are limited to three links.  The reported score is the
    boosted score cut at 100. *)
Theorem link_boost_per_link (body subject : str) (d : DocumentAnalysis) :
  analyze_email_content caps body subject = Return (Some d) ->
  let a := _analyze_financial_content caps (subject ++ newline ++ body) in
  let links := _extract_financial_links body in
  List.length links = List.length (nodup str_eq_dec (link_matches body))
  /\ financial_score d =
       Z.min (Analysis.score a + 3 * Z.of_nat (List.length links)) 100
  /\ keywords_found d =
       Analysis.keywords a ++ map link_label (slice_to 3 links).
Proof.
  intros H. apply analyze_email_content_result in H.
  destruct H as (_ & _ & ->). cbn [financial_score keywords_found].
  split; [apply extract_links_length |].
  split; [f_equal; lia | reflexivity].
Qed.

(** *** Bounds on the score *)

(** C4: the reported score lies in [0, 100] in e-mail mode, where it is
    cut at 100, and in [0, 60] in attachment mode, where it is the sum of
    [min(keyword_count*2, 20)], [min(amount_count*5, 20)] and the two
    bonuses of 10. *)
Theorem financial_score_range :
  (forall body subject d,
      analyze_email_content caps body subject = Return (Some d) ->
      0 <= financial_score d <= 100)
  /\ (forall file_data name mime d,
        process_attachment caps file_data name mime = Return (Some d) ->
        0 <= financial_score d <= 60 /\
        exists txt,
          _extract_text caps file_data mime = Return txt /\
          financial_score d =
            Z.min (Z.of_nat (snd (scan_keywords (lower txt)
                                    (detected_language caps txt))) * 2) 20
            + Z.min (Z.of_nat (List.length (find_amounts txt)) * 5) 20
            + bonus invoice_pattern (lower txt)
            + bonus receipt_pattern (lower txt)).
Proof.
  split.
  - intros body subject d H. apply analyze_email_content_result in H.
    destruct H as (_ & _ & ->). cbn [financial_score].
    pose proof (analysis_score_range (subject ++ newline ++ body)). lia.
  - intros file_data name mime d H. apply process_attachment_result in H.
    destruct H as (txt & Htxt & _ & _ & ->). cbn [financial_score].
    split; [apply analysis_score_range |].
    exists txt. split; [exact Htxt | apply analysis_score].
Qed.

(** *** Text extraction *)

(** C5: [_extract_text] returns a string for every content and media
    type, and so do the PDF and image readers under it; a media type
    without a branch, or none at all, gives the empty string; when a
    page of a PDF raises, the text of the pages before it is what the PDF
    reader returns, and [_extract_text] returns it stripped; when the
    PDF cannot be opened at all, the result is the empty string. *)
Theorem extract_text_never_raises (file_data : bytes) (mime : option str) :
  (exists s, _extract_text caps file_data mime = Return s)
  /\ (exists s, _extract_from_pdf caps file_data = Return s)
  /\ (exists s, _extract_from_image caps file_data = Return s)
  /\ (unsupported mime -> _extract_text caps file_data mime = Return [])
  /\ (forall texts e rest,
        pdf_pages caps file_data = Return (map Return texts ++ Raise e :: rest) ->
        _extract_from_pdf caps file_data = Return (pages_text texts) /\
        _extract_text caps file_data (Some (u "application/pdf")) =
          Return (strip (pages_text texts)))
  /\ (forall e,
        pdf_pages caps file_data = Raise e ->
        _extract_text caps file_data (Some (u "application/pdf")) = Return []).
Proof.
  split; [apply try_except_returns |].
  split; [apply extract_from_pdf_returns |].
  split; [apply extract_from_image_returns |].
  split; [| split].
  - unfold unsupported, supported_type, _extract_text.
    destruct mime as [m |]; [| reflexivity].
    intros H. apply orb_false_iff in H. destruct H as [H Htext].
    apply orb_false_iff in H. destruct H as [Hpdf Himage].
    cbn [eq_literal startswith_method bind].
    rewrite Hpdf, Himage, Htext. reflexivity.
  - intros texts e rest Hpages.
    assert (Hpdf : _extract_from_pdf caps file_data = Return (pages_text texts)).
    { unfold _extract_from_pdf. rewrite Hpages, pdf_loop_raise. reflexivity. }
    split; [exact Hpdf |].
    unfold _extract_text. cbn [eq_literal].
    rewrite str_eqb_refl, Hpdf. reflexivity.
  - intros e Hopen.
    unfold _extract_text, _extract_from_pdf. cbn [eq_literal].
    rewrite str_eqb_refl, Hopen. reflexivity.
Qed.

(** *** Blank input *)

(** C6: in e-mail mode a subject and body whose combination is white
    space only give no result, and in attachment mode an empty extracted
    text gives no result. *)
Theorem blank_input_no_result :
  (forall body subject,
      whitespace_only (subject ++ newline ++ body) = true ->
      analyze_email_content caps body subject = Return None)
  /\ (forall file_data name mime,
        _extract_text caps file_data mime = Return [] ->
        process_attachment caps file_data name mime = Return None).
Proof.
  split.
  - intros body subject H. apply strip_nil_iff in H.
    unfold analyze_email_content. cbv zeta. rewrite H. reflexivity.
  - intros file_data name mime H.
    unfold process_attachment. rewrite H. reflexivity.
Qed.

(** *** Lengths of the reported lists *)

(** C7: [amounts_found] has at most 3 entries; [keywords_found] has at
    most 5 in attachment mode and at most 8 in e-mail mode. *)
Theorem reported_lists_bounded :
  (forall file_data name mime d,
      process_attachment caps file_data name mime = Return (Some d) ->
      (List.length (amounts_found d) <= 3)%nat /\
      (List.length (keywords_found d) <= 5)%nat)
  /\ (forall body subject d,
        analyze_email_content caps body subject = Return (Some d) ->
        (List.length (amounts_found d) <= 3)%nat /\
        (List.length (keywords_found d) <= 8)%nat).
Proof.
  split.
  - intros file_data name mime d H. apply process_attachment_result in H.
    destruct H as (txt & _ & _ & _ & ->).
    cbn [amounts_found keywords_found].
    rewrite analysis_amounts, analysis_keywords.
    split; apply slice_to_length.
  - intros body subject d H. apply analyze_email_content_result in H.
    destruct H as (_ & _ & ->). cbn [amounts_found keywords_found].
    rewrite analysis_amounts, analysis_keywords.
    split; [apply slice_to_length |].
    rewrite length_app, length_map.
    pose proof (slice_to_length 5
      (fst (scan_keywords (lower (subject ++ newline ++ body))
              (detected_language caps (subject ++ newline ++ body))))).
    pose proof (slice_to_length 3 (_extract_financial_links body)).
    lia.
Qed.

(** *** The language *)

(** C8: the language of the analysis is a key of the lexicon; when
    [detect] raises, or answers a code that is not a key, the language
    is ["en"]. *)
Theorem language_in_lexicon (txt : str) :
  dict_mem financial_keywords
    (Analysis.language (_analyze_financial_content caps txt)) = true
  /\ (forall e, detect caps txt = Raise e ->
        Analysis.language (_analyze_financial_content caps txt) = u "en")
  /\ (forall code, detect caps txt = Return code ->
        dict_mem financial_keywords code = false ->
        Analysis.language (_analyze_financial_content caps txt) = u "en").
Proof.
  rewrite analysis_language. split; [apply detected_language_is_key |].
  unfold detected_language. split.
  - intros e ->. reflexivity.
  - intros code -> ->. reflexivity.
Qed.

(** *** A returned result has a score of 5 or more *)

(** C9: every result that is returned, in either mode, has
    [financial_score >= 5]. *)
Theorem returned_score_at_least_5 :
  (forall file_data name mime d,
      process_attachment caps file_data name mime = Return (Some d) ->
      5 <= financial_score d)
  /\ (forall body subject d,
        analyze_email_content caps body subject = Return (Some d) ->
        5 <= financial_score d).
Proof.
  split.
  - intros file_data name mime d H. apply process_attachment_result in H.
    destruct H as (txt & _ & _ & Hfin & ->). cbn [financial_score].
    now apply financial_score_at_least_5.
  - intros body subject d H. apply analyze_email_content_result in H.
    destruct H as (_ & Hfin & ->). cbn [financial_score].
    apply financial_score_at_least_5 in Hfin. lia.
Qed.

(** *** The labels of an e-mail result *)

(** C10: every result of the e-mail analysis has the file name
    ["email_content"] and the media type ["text/html"], whatever the
    body is. *)
Theorem email_result_labels (body subject : str) (d : DocumentAnalysis) :
  analyze_email_content caps body subject = Return (Some d) ->
  filename d = u "email_content" /\ mime_type d = Some (u "text/html").
Proof.
  intros H. apply analyze_email_content_result in H.
  destruct H as (_ & _ & ->). split; reflexivity.
Qed.

End Properties.

(** ** Runs on concrete inputs *)

Local Open Scope Z_scope.

(** ["$5.00"] holds one amount and no keyword: the score is 5 and the
    text is financial. *)
Lemma is_financial_decision_witness :
  (exists pattern, In pattern amount_patterns /\
                   search true pattern (u "$5.00") = true)
  /\ Analysis.score (_analyze_financial_content caps_failing (u "$5.00")) = 5
  /\ Analysis.is_financial
       (_analyze_financial_content caps_failing (u "$5.00")) = true.
Proof.
  assert (H : exists pattern, In pattern amount_patterns /\
                              search true pattern (u "$5.00") = true).
  { exists (nth 1 amount_patterns Empty). split.
    - right. left. reflexivity.
    - vm_compute. reflexivity. }
  split; [exact H |]. split; [vm_compute; reflexivity |].
  exact (proj2 (proj2 (is_financial_decision caps_failing (u "$5.00"))) H).
Defined.

(** C2 as the claim states it fails: a German text with the word "bank"
    reports that keyword twice and counts its one occurrence twice,
    because "bank" is in the German list and in the English list; and an
    English text with the word "receipt" reports and counts it twice,
    because the English list is scanned twice. *)
Lemma keywords_found_repeats :
  (Analysis.language (_analyze_financial_content (caps_lang "de") (u "Bank"))
     = u "de"
   /\ count (lower (u "Bank")) (u "bank") = 1%nat
   /\ scan_keywords (lower (u "Bank")) (u "de") = ([u "bank"; u "bank"], 2%nat)
   /\ ~ NoDup (Analysis.keywords
                 (_analyze_financial_content (caps_lang "de") (u "Bank"))))
  /\ (Analysis.language
        (_analyze_financial_content (caps_lang "en") (u "receipt")) = u "en"
      /\ count (lower (u "receipt")) (u "receipt") = 1%nat
      /\ scan_keywords (lower (u "receipt")) (u "en")
           = ([u "receipt"; u "receipt"], 2%nat)
      /\ ~ NoDup (Analysis.keywords
                    (_analyze_financial_content (caps_lang "en")
                       (u "receipt")))).
Proof.
  split.
  - repeat split; try (vm_compute; reflexivity).
    intros H.
    assert (E : Analysis.keywords
                  (_analyze_financial_content (caps_lang "de") (u "Bank"))
                = [u "bank"; u "bank"]) by (vm_compute; reflexivity).
    rewrite E in H. inversion H as [| x l Hnotin _]. apply Hnotin. now left.
  - repeat split; try (vm_compute; reflexivity).
    intros H.
    assert (E : Analysis.keywords
                  (_analyze_financial_content (caps_lang "en") (u "receipt"))
                = [u "receipt"; u "receipt"]) by (vm_compute; reflexivity).
    rewrite E in H. inversion H as [| x l Hnotin _]. apply Hnotin. now left.
Qed.

Lemma keywords_scanned_list_by_list_witness :
  detected_language (caps_lang "de") (u "Bank") <> u "en"
  /\ Analysis.keywords (_analyze_financial_content (caps_lang "de") (u "Bank"))
     = slice_to 5
         (matched (lower (u "Bank")) (keywords_of (u "de"))
          ++ matched (lower (u "Bank")) (keywords_of (u "en"))).
Proof.
  assert (H : detected_language (caps_lang "de") (u "Bank") <> u "en")
    by (vm_compute; discriminate).
  split; [exact H |].
  exact (proj2 (keywords_scanned_list_by_list (caps_lang "de") (u "Bank") H)).
Defined.

(** C3 as the claim states it fails: a body with four distinct links is
    boosted by 12 points, not by [3 * min 4 3 = 9]. *)
Lemma link_boost_exceeds_three_links :
  List.length (_extract_financial_links four_links) = 4%nat
  /\ Analysis.score
       (_analyze_financial_content (caps_lang "en") (newline ++ four_links))
     = 26
  /\ reported_score (analyze_email_content (caps_lang "en") four_links [])
     = Some 38
  /\ 38 <> Z.min (26 + 3 * Z.min 4 3) 100.
Proof.
  repeat split; try (vm_compute; reflexivity).
  vm_compute. discriminate.
Qed.

Lemma link_boost_per_link_witness :
  exists d,
    analyze_email_content (caps_lang "en") four_links [] = Return (Some d)
    /\ financial_score d =
         Z.min (Analysis.score
                  (_analyze_financial_content (caps_lang "en")
                     ([] ++ newline ++ four_links))
                + 3 * Z.of_nat (List.length
                                  (_extract_financial_links four_links)))
               100.
Proof.
  eexists. split; [vm_compute; reflexivity |].
  refine (proj1 (proj2 (link_boost_per_link (caps_lang "en") four_links [] _))).
  vm_compute. reflexivity.
Defined.

(** The e-mail of the scenario scores 25; a text attachment with an
    invoice line scores 28. *)
Lemma financial_score_range_witness :
  (exists d,
      analyze_email_content (caps_lang "en") scenario_body scenario_subject
        = Return (Some d)
      /\ financial_score d = 25 /\ 0 <= financial_score d <= 100)
  /\ (exists d,
        process_attachment (caps_lang "en")
          (list_byte_of_string "Invoice total: 5.00 EUR") (u "a.txt")
          (Some (u "text/plain")) = Return (Some d)
        /\ financial_score d = 28 /\ 0 <= financial_score d <= 60).
Proof.
  split.
  - eexists. split; [vm_compute; reflexivity |].
    split; [vm_compute; reflexivity |].
    refine (proj1 (financial_score_range (caps_lang "en")) scenario_body
              scenario_subject _ _).
    vm_compute. reflexivity.
  - eexists. split; [vm_compute; reflexivity |].
    split; [vm_compute; reflexivity |].
    refine (proj1 (proj2 (financial_score_range (caps_lang "en"))
                     (list_byte_of_string "Invoice total: 5.00 EUR")
                     (u "a.txt") (Some (u "text/plain")) _ _)).
    vm_compute. reflexivity.
Defined.

(** A PDF whose third page raises gives the text of its first two
    pages; a missing media type gives the empty string. *)
Lemma extract_text_never_raises_witness :
  unsupported None
  /\ _extract_text caps_pdf [] None = Return []
  /\ pdf_pages caps_pdf [] =
       Return (map Return [u "Total due"; u "12.50 EUR"]
               ++ Raise LibraryError :: [Return (u "never read")])
  /\ _extract_text caps_pdf [] (Some (u "application/pdf")) =
       Return (strip (pages_text [u "Total due"; u "12.50 EUR"]))
  /\ _extract_text caps_pdf [] (Some (u "application/pdf")) =
       Return (u "Total due" ++ newline ++ u "12.50 EUR").
Proof.
  assert (Hu : unsupported None) by exact I.
  assert (Hp : pdf_pages caps_pdf [] =
                 Return (map Return [u "Total due"; u "12.50 EUR"]
                         ++ Raise LibraryError :: [Return (u "never read")]))
    by reflexivity.
  split; [exact Hu |].
  destruct (extract_text_never_raises caps_pdf [] None)
    as (_ & _ & _ & Hnone & Hpartial & _).
  split; [exact (Hnone Hu) |].
  split; [exact Hp |].
  split.
  - exact (proj2 (Hpartial _ _ _ Hp)).
  - vm_compute. reflexivity.
Defined.

(** A blank subject with a blank body, and an empty text attachment *)
Lemma blank_input_no_result_witness :
  whitespace_only (u " " ++ newline ++ u "  ") = true
  /\ analyze_email_content caps_failing (u "  ") (u " ") = Return None
  /\ _extract_text caps_failing [] (Some (u "text/plain")) = Return []
  /\ process_attachment caps_failing [] (u "a.txt") (Some (u "text/plain"))
     = Return None.
Proof.
  assert (Hw : whitespace_only (u " " ++ newline ++ u "  ") = true)
    by (vm_compute; reflexivity).
  assert (He : _extract_text caps_failing [] (Some (u "text/plain")) = Return [])
    by (vm_compute; reflexivity).
  split; [exact Hw |].
  split; [exact (proj1 (blank_input_no_result caps_failing) _ _ Hw) |].
  split; [exact He |].
  exact (proj2 (blank_input_no_result caps_failing) [] (u "a.txt") _ He).
Defined.

Lemma reported_lists_bounded_witness :
  (exists d,
      process_attachment (caps_lang "en")
        (list_byte_of_string "Invoice total: 5.00 EUR") (u "a.txt")
        (Some (u "text/plain")) = Return (Some d)
      /\ (List.length (amounts_found d) <= 3)%nat
      /\ (List.length (keywords_found d) <= 5)%nat)
  /\ (exists d,
        analyze_email_content (caps_lang "en") four_links [] = Return (Some d)
        /\ (List.length (amounts_found d) <= 3)%nat
        /\ (List.length (keywords_found d) <= 8)%nat).
Proof.
  split.
  - eexists. split; [vm_compute; reflexivity |].
    refine (proj1 (reported_lists_bounded (caps_lang "en"))
              (list_byte_of_string "Invoice total: 5.00 EUR")
              (u "a.txt") (Some (u "text/plain")) _ _).
    vm_compute. reflexivity.
  - eexists. split; [vm_compute; reflexivity |].
    refine (proj2 (reported_lists_bounded (caps_lang "en")) four_links [] _ _).
    vm_compute. reflexivity.
Defined.

(** A detector that raises, and one that answers a language outside
    the lexicon *)
Lemma language_in_lexicon_witness :
  detect caps_failing (u "receipt") = Raise LibraryError
  /\ Analysis.language (_analyze_financial_content caps_failing (u "receipt"))
     = u "en"
  /\ detect (caps_lang "it") (u "ricevuta") = Return (u "it")
  /\ dict_mem financial_keywords (u "it") = false
  /\ Analysis.language
       (_analyze_financial_content (caps_lang "it") (u "ricevuta")) = u "en".
Proof.
  assert (Hm : dict_mem financial_keywords (u "it") = false)
    by (vm_compute; reflexivity).
  split; [reflexivity |].
  split; [exact (proj1 (proj2 (language_in_lexicon caps_failing (u "receipt")))
                   LibraryError eq_refl) |].
  split; [reflexivity |].
  split; [exact Hm |].
  exact (proj2 (proj2 (language_in_lexicon (caps_lang "it") (u "ricevuta")))
           (u "it") eq_refl Hm).
Defined.

(** A text attachment with one amount and nothing else scores 5. *)
Lemma returned_score_at_least_5_witness :
  (exists d,
      process_attachment caps_failing (list_byte_of_string "$5.00")
        (u "a.txt") (Some (u "text/plain")) = Return (Some d)
      /\ financial_score d = 5 /\ 5 <= financial_score d)
  /\ (exists d,
        analyze_email_content caps_failing (u "$5.00") [] = Return (Some d)
        /\ 5 <= financial_score d).
Proof.
  split.
  - eexists. split; [vm_compute; reflexivity |].
    split; [vm_compute; reflexivity |].
    refine (proj1 (returned_score_at_least_5 caps_failing)
              (list_byte_of_string "$5.00") (u "a.txt")
              (Some (u "text/plain")) _ _).
    vm_compute. reflexivity.
  - eexists. split; [vm_compute; reflexivity |].
    refine (proj2 (returned_score_at_least_5 caps_failing) (u "$5.00") [] _ _).
    vm_compute. reflexivity.
Defined.

(** A body of plain text is reported as ["text/html"]. *)
Lemma email_result_labels_witness :
  exists d,
    analyze_email_content caps_failing (u "$5.00") [] = Return (Some d)
    /\ filename d = u "email_content"
    /\ mime_type d = Some (u "text/html").
Proof.
  eexists. split; [vm_compute; reflexivity |].
  refine (email_result_labels caps_failing (u "$5.00") [] _).
  vm_compute. reflexivity.
Defined.

(** ** The scenarios of the specification *)

(** A Russian total line: the ruble pattern matches and the text is
    financial. *)
Example scenario_ruble_total :
  let a := _analyze_financial_content (caps_lang "ru")
             (u "ИТОГО: 1500.00 руб, спасибо за покупку") in
  Analysis.language a = u "ru"
  /\ findall true (nth 0 amount_patterns Empty)
       (u "ИТОГО: 1500.00 руб, спасибо за покупку") = [u "1500.00 руб"]
  /\ Analysis.is_financial a = true.
Proof. repeat split; vm_compute; reflexivity. Qed.

(** A greeting: no keyword, no amount, score 0, no result. *)
Example scenario_greeting :
  Analysis.score
    (_analyze_financial_content (caps_lang "en") (u "Hello, how are you?")) = 0
  /\ process_attachment (caps_lang "en")
       (list_byte_of_string "Hello, how are you?") (u "hello.txt")
       (Some (u "text/plain")) = Return None.
Proof. split; vm_compute; reflexivity. Qed.

(** A PDF that cannot be read: empty text, no result, nothing raised. *)
Example scenario_corrupt_pdf :
  _extract_text caps_failing (list_byte_of_string "%PDF-broken")
    (Some (u "application/pdf")) = Return []
  /\ process_attachment caps_failing (list_byte_of_string "%PDF-broken")
       (u "scan.pdf") (Some (u "application/pdf")) = Return None.
Proof. split; vm_compute; reflexivity. Qed.

(** An e-mail with an invoice link: the invoice bonus and the link boost
    apply, and the keywords end with a label for the link. *)
Example scenario_invoice_mail :
  reported_score
    (analyze_email_content (caps_lang "en") scenario_body scenario_subject)
  = Some 25
  /\ reported_keywords
       (analyze_email_content (caps_lang "en") scenario_body scenario_subject)
     = Some [u "invoice"; u "bill"; u "invoice"; u "bill";
             u "link:https://billing.example.com/in..."].
Proof. split; vm_compute; reflexivity. Qed.

(** ** Further properties of the document processor *)

Local Open Scope nat_scope.

Section Matches.
Context {rt : PyRuntime}.
Variable ic : bool.

(** *** What a match consumes *)

Lemma rep_greedy_consumes {A} (a : atom) (s : str) :
  forall (lo : nat) (hi : option nat) (k : str -> option A) (x : A),
    rep_greedy ic a lo hi s k = Some x ->
    exists m rest, s = m ++ rest /\ k rest = Some x /\ lo <= List.length m.
Proof.
  induction s as [| c s IH]; intros lo hi k x H.
  - assert (Hstop : match lo with O => k [] | S _ => None end = Some x).
    { destruct hi as [[| h] |]; exact H. }
    destruct lo; [| discriminate].
    exists [], []. auto.
  - assert (Hstop : match lo with O => k (c :: s) | S _ => None end = Some x ->
                    exists m rest, c :: s = m ++ rest /\ k rest = Some x /\
                                   lo <= List.length m).
    { intros Hs. destruct lo; [| discriminate].
      exists [], (c :: s). auto. }
    assert (Hmore :
      (if atom_match ic a c
       then match rep_greedy ic a (Nat.pred lo) (option_map Nat.pred hi) s k
            with Some y => Some y
               | None => match lo with O => k (c :: s) | S _ => None end
            end
       else match lo with O => k (c :: s) | S _ => None end) = Some x ->
      exists m rest, c :: s = m ++ rest /\ k rest = Some x /\
                     lo <= List.length m).
    { destruct (atom_match ic a c); [| exact Hstop].
      destruct (rep_greedy ic a (Nat.pred lo) (option_map Nat.pred hi) s k)
        as [y |] eqn:E; [| exact Hstop].
      intros Hy. injection Hy as ->.
      apply IH in E. destruct E as (m & rest & -> & Hk & Hlo).
      exists (c :: m), rest. cbn [app List.length].
      repeat split; [exact Hk | lia]. }
    destruct hi as [[| h] |]; cbn [rep_greedy] in H; auto.
Qed.

Lemma rmatch_consumes {A} (r : regex) :
  forall (s : str) (k : str -> option A) (x : A),
    rmatch ic r s k = Some x ->
    exists m rest, s = m ++ rest /\ k rest = Some x /\
                   min_len r <= List.length m.
Proof.
  induction r as [| a | r1 IH1 r2 IH2 | r1 IH1 r2 IH2 | a lo hi];
    intros s k x H; cbn [rmatch min_len] in *.
  - exists [], s. auto.
  - destruct s as [| c s]; [discriminate |].
    destruct (atom_match ic a c); [| discriminate].
    exists [c], s. auto.
  - apply IH1 in H. destruct H as (m1 & rest1 & -> & H & Hm1).
    apply IH2 in H. destruct H as (m2 & rest & -> & H & Hm2).
    exists (m1 ++ m2), rest. rewrite <- app_assoc, length_app.
    repeat split; [exact H | lia].
  - destruct (rmatch ic r1 s k) as [y |] eqn:E.
    + injection H as ->. apply IH1 in E.
      destruct E as (m & rest & -> & Hk & Hm).
      exists m, rest. repeat split; [exact Hk | lia].
    + apply IH2 in H. destruct H as (m & rest & -> & Hk & Hm).
      exists m, rest. repeat split; [exact Hk | lia].
  - eapply rep_greedy_consumes. exact H.
Qed.

Lemma match_len_prefix (r : regex) (s : str) (n : nat) :
  match_len ic r s = Some n ->
  exists rest, s = firstn n s ++ rest /\
               List.length (firstn n s) = n /\ min_len r <= n.
Proof.
  unfold match_len. intros H. apply rmatch_consumes in H.
  destruct H as (m & rest & -> & Hn & Hm). injection Hn as <-.
  rewrite length_app, Nat.add_sub.
  exists rest. rewrite firstn_app, Nat.sub_diag, firstn_all. cbn [firstn].
  rewrite app_nil_r. auto.
Qed.

Lemma match_len_advance_prefix (r : regex) (s : str) (n : nat) :
  match_len_advance ic r s = Some n ->
  exists rest, s = firstn n s ++ rest /\
               List.length (firstn n s) = n /\ min_len r <= n.
Proof.
  unfold match_len_advance. intros H. apply rmatch_consumes in H.
  destruct H as (m & rest & -> & Hn & Hm).
  destruct (List.length rest <? List.length (m ++ rest)); [| discriminate].
  injection Hn as <-.
  rewrite length_app, Nat.add_sub.
  exists rest. rewrite firstn_app, Nat.sub_diag, firstn_all. cbn [firstn].
  rewrite app_nil_r. auto.
Qed.

Lemma substring_cons (m s : str) (c : char) :
  substring m s -> substring m (c :: s).
Proof. intros (pre & post & ->). now exists (c :: pre), post. Qed.

(** Every match that [findall] lists occurs in the text and has at least
    the least length of the pattern. *)
Lemma findall_from_elements (r : regex) (s : str) :
  forall (skip : nat) (m : str),
    In m (findall_from ic r s skip) ->
    substring m s /\ min_len r <= List.length m.
Proof.
  induction s as [| c s IH]; intros skip m Hin; cbn [findall_from] in Hin.
  - destruct skip; [| destruct Hin].
    destruct (match_len ic r []) as [n |] eqn:E; [| destruct Hin].
    destruct Hin as [<- | []].
    apply match_len_prefix in E. destruct E as (rest & _ & Hlen & Hmin).
    rewrite firstn_nil in Hlen. cbn [List.length] in Hlen. subst n.
    split; [now exists [], [] | exact Hmin].
  - assert (Hrec : forall n, In m (findall_from ic r s n) ->
                             substring m (c :: s) /\
                             min_len r <= List.length m).
    { intros n H. apply IH in H. destruct H as [H1 H2].
      split; [now apply substring_cons | exact H2]. }
    assert (Hhere : forall n rest,
              c :: s = firstn n (c :: s) ++ rest ->
              List.length (firstn n (c :: s)) = n -> min_len r <= n ->
              substring (firstn n (c :: s)) (c :: s) /\
              min_len r <= List.length (firstn n (c :: s))).
    { intros n rest Hs Hl Hmin. split; [| lia].
      exists [], rest. exact Hs. }
    destruct skip as [| skip]; [| now apply Hrec in Hin].
    destruct (match_len ic r (c :: s)) as [[| n] |] eqn:E.
    + apply match_len_prefix in E. destruct E as (rest & Hs & Hl & Hmin).
      destruct Hin as [<- | Hin].
      * split; [now exists [], (c :: s) | exact Hmin].
      * destruct (match_len_advance ic r (c :: s)) as [[| n] |] eqn:E2;
          try (now apply Hrec in Hin).
        destruct Hin as [<- | Hin]; [| now apply Hrec in Hin].
        apply match_len_advance_prefix in E2.
        destruct E2 as (rest2 & Hs2 & Hl2 & Hmin2). eauto.
    + destruct Hin as [<- | Hin]; [| now apply Hrec in Hin].
      apply match_len_prefix in E. destruct E as (rest & Hs & Hl & Hmin).
      eauto.
    + now apply Hrec in Hin.
Qed.

End Matches.

Section ProcessorFacts.
Context {rt : PyRuntime}.
Variable caps : Capabilities.

(** *** Prefixes and substrings *)

Lemma in_slice_to {A} (n : nat) (l : list A) (x : A) :
  In x (slice_to n l) -> In x l.
Proof.
  unfold slice_to. intros H.
  rewrite <- (firstn_skipn n l). apply in_or_app. now left.
Qed.

Lemma startswith_spec (s p : str) :
  startswith s p = true <-> exists post, s = p ++ post.
Proof.
  revert s. induction p as [| x p IH]; intros s; cbn [startswith].
  - split; [intros _; now exists s | intros _; destruct s; reflexivity].
  - destruct s as [| y s].
    + split; [discriminate | intros (post & H); discriminate].
    + unfold char_eqb. split.
      * intros H. apply andb_true_iff in H. destruct H as [Hxy Hrest].
        apply N.eqb_eq in Hxy. subst y.
        apply IH in Hrest. destruct Hrest as (post & ->). now exists post.
      * intros (post & H). injection H as -> ->.
        cbn [startswith]. unfold char_eqb. rewrite N.eqb_refl. apply IH. now exists post.
Qed.

Lemma contains_spec (sub s : str) :
  contains sub s = true <-> substring sub s.
Proof.
  induction s as [| c s IH]; cbn [contains].
  - rewrite orb_false_r, startswith_spec. split.
    + intros (post & H). now exists [], post.
    + intros (pre & post & H).
      destruct pre; [now exists post | discriminate].
  - rewrite orb_true_iff, startswith_spec, IH. split.
    + intros [(post & H) | H].
      * now exists [], post.
      * now apply substring_cons.
    + intros (pre & post & H). destruct pre as [| x pre].
      * left. now exists post.
      * right. injection H as _ ->. now exists pre, post.
Qed.

(** *** What [findall] lists for the patterns of the source *)

Lemma amount_patterns_min_len (p : regex) :
  In p amount_patterns -> 5 <= min_len p.
Proof.
  assert (H : forallb (fun q => 5 <=? min_len q) amount_patterns = true)
    by (vm_compute; reflexivity).
  rewrite forallb_forall in H. intros Hin. now apply Nat.leb_le, H.
Qed.


Lemma find_amounts_elements (txt m : str) :
  In m (find_amounts txt) -> substring m txt /\ 5 <= List.length m.
Proof.
  rewrite find_amounts_flat_map, in_flat_map.
  intros (p & Hp & Hm). unfold findall in Hm.
  apply findall_from_elements in Hm. destruct Hm as [Hsub Hlen].
  apply amount_patterns_min_len in Hp. split; [exact Hsub | lia].
Qed.



Lemma analysis_keyword_hit (txt k : str) :
  In k (Analysis.keywords (_analyze_financial_content caps txt)) ->
  lexicon_hit (lower txt) (detected_language caps txt) k.
Proof.
  rewrite analysis_keywords, scan_keywords_spec. cbn [fst].
  intros H. apply in_slice_to, in_app_or in H. unfold lexicon_hit, matched in *.
  destruct H as [H | H]; apply filter_In in H; tauto.
Qed.

(** *** Stripping twice *)

Lemma dropwhile_split {A} (p : A -> bool) (l : list A) :
  exists pre, l = pre ++ dropwhile p l.
Proof.
  induction l as [| x l (pre & IH)]; cbn [dropwhile].
  - now exists [].
  - destruct (p x).
    + exists (x :: pre). cbn [app]. now rewrite <- IH.
    + now exists [].
Qed.

Lemma dropwhile_fixed {A} (p : A -> bool) (x : A) (l : list A) :
  p x = false -> dropwhile p (x :: l) = x :: l.
Proof. intros H. cbn [dropwhile]. now rewrite H. Qed.

Lemma dropwhile_idem {A} (p : A -> bool) (l : list A) :
  dropwhile p (dropwhile p l) = dropwhile p l.
Proof.
  destruct (dropwhile p l) as [| x l'] eqn:E; [reflexivity |].
  apply dropwhile_fixed. eapply dropwhile_head. exact E.
Qed.

Lemma strip_no_leading_space (s : str) :
  dropwhile isspace (strip s) = strip s.
Proof.
  unfold strip.
  destruct (dropwhile isspace s) as [| x b] eqn:Eb; [reflexivity |].
  pose proof (dropwhile_head _ _ Eb) as Hx.
  destruct (dropwhile_split isspace (rev (x :: b))) as (pre & Hpre).
  destruct (dropwhile isspace (rev (x :: b))) as [| y a] eqn:Ea;
    [reflexivity |].
  assert (Hb : x :: b = rev (y :: a) ++ rev pre).
  { rewrite <- rev_app_distr, <- Hpre. now rewrite rev_involutive. }
  destruct (rev (y :: a)) as [| z t] eqn:Er.
  - apply (f_equal (@List.length char)) in Er.
    rewrite length_rev in Er. discriminate.
  - cbn [app] in Hb. injection Hb as <- _. now apply dropwhile_fixed.
Qed.

Lemma strip_idem (s : str) : strip (strip s) = strip s.
Proof.
  unfold strip at 1. rewrite strip_no_leading_space.
  unfold strip. rewrite rev_involutive, dropwhile_idem. reflexivity.
Qed.

Lemma extract_text_cases (file_data : bytes) (mime : option str) (s : str) :
  _extract_text caps file_data mime = Return s ->
  s = [] \/ exists raw, s = strip raw.
Proof.
  unfold _extract_text.
  match goal with
  | |- try_except (bind ?c _) _ = _ -> _ => destruct c as [raw | e]
  end; cbn [bind try_except]; intros H; injection H as <-.
  - right. now exists raw.
  - now left.
Qed.

Lemma extract_text_unsupported (file_data : bytes) (mime : option str) :
  unsupported mime -> _extract_text caps file_data mime = Return [].
Proof.
  unfold unsupported, supported_type, _extract_text.
  destruct mime as [m |]; [| reflexivity].
  intros H. apply orb_false_iff in H. destruct H as [H Htext].
  apply orb_false_iff in H. destruct H as [Hpdf Himage].
  cbn [eq_literal startswith_method bind].
  rewrite Hpdf, Himage, Htext. reflexivity.
Qed.

End ProcessorFacts.

Section ProcessorTheorems.
Context {rt : PyRuntime}.
Variable caps : Capabilities.

Local Open Scope Z_scope.

(** X1: every amount that the analysis reports is a run of at least
    five consecutive characters of the analysed text, taken from it
    unchanged. *)
Theorem amounts_occur_in_text (txt m : str) :
  In m (Analysis.amounts (_analyze_financial_content caps txt)) ->
  substring m txt /\ (5 <= List.length m)%nat.
Proof.
  rewrite analysis_amounts. intros H.
  apply in_slice_to in H. now apply find_amounts_elements.
Qed.

(** X2: every keyword that the analysis reports is a keyword of the
    lexicon, from the list of the detected language or from the English
    list, and occurs in the lower-cased text. *)
Theorem keywords_come_from_lexicon (txt k : str) :
  In k (Analysis.keywords (_analyze_financial_content caps txt)) ->
  (In k (keywords_of (detected_language caps txt))
   \/ In k (keywords_of (u "en")))
  /\ substring k (lower txt).
Proof.
  intros H. apply analysis_keyword_hit in H. destruct H as [Hin Hc].
  split; [exact Hin | now apply contains_spec].
Qed.

(** X3: in e-mail mode every reported keyword is either such a keyword
    of the lexicon, or the label of one of the extracted links, a label
    being ["link:"], the first 30 characters of the link and ["..."]. *)
Theorem email_keywords_origin (body subject : str) (d : DocumentAnalysis)
    (k : str) :
  analyze_email_content caps body subject = Return (Some d) ->
  In k (keywords_found d) ->
  lexicon_hit (lower (subject ++ newline ++ body))
    (detected_language caps (subject ++ newline ++ body)) k
  \/ exists link,
       In link (_extract_financial_links body) /\
       k = u "link:" ++ firstn 30 link ++ u "...".
Proof.
  intros H Hk. apply analyze_email_content_result in H.
  destruct H as (_ & _ & ->). cbn [keywords_found] in Hk.
  apply in_app_or in Hk. destruct Hk as [Hk | Hk].
  - left. now apply analysis_keyword_hit.
  - right. apply in_map_iff in Hk. destruct Hk as (link & <- & Hin).
    exists link. split; [now apply in_slice_to in Hin | reflexivity].
Qed.

(** X4: the stored text of a result is the first 1000 characters of the
    analysed text and never longer: of the extracted text for an
    attachment, of subject, newline and body for an e-mail. *)
Theorem text_snippet_is_prefix :
  (forall file_data name mime d,
      process_attachment caps file_data name mime = Return (Some d) ->
      exists txt rest,
        _extract_text caps file_data mime = Return txt /\
        txt = text d ++ rest /\
        List.length (text d) = Nat.min 1000 (List.length txt))
  /\ (forall body subject d,
        analyze_email_content caps body subject = Return (Some d) ->
        exists rest,
          subject ++ newline ++ body = text d ++ rest /\
          List.length (text d) =
            Nat.min 1000 (List.length (subject ++ newline ++ body))).
Proof.
  split.
  - intros file_data name mime d H. apply process_attachment_result in H.
    destruct H as (txt & Htxt & _ & _ & ->). cbn [text].
    exists txt, (skipn 1000 txt). unfold slice_to.
    split; [exact Htxt |].
    split; [now rewrite firstn_skipn | apply length_firstn].
  - intros body subject d H. apply analyze_email_content_result in H.
    destruct H as (_ & _ & ->). cbn [text].
    exists (skipn 1000 (subject ++ newline ++ body)). unfold slice_to.
    split; [now rewrite firstn_skipn | apply length_firstn].
Qed.

(** X5: the text that [_extract_text] returns is stripped: stripping it
    again changes nothing, so it neither starts nor ends with white
    space. *)
Theorem extracted_text_is_stripped (file_data : bytes) (mime : option str)
    (s : str) :
  _extract_text caps file_data mime = Return s ->
  strip s = s /\ dropwhile isspace s = s /\
  dropwhile isspace (rev s) = rev s.
Proof.
  intros H. apply extract_text_cases in H.
  destruct H as [-> | (raw & ->)].
  - repeat split.
  - split; [apply strip_idem |].
    split; [apply strip_no_leading_space |].
    unfold strip. rewrite rev_involutive. apply dropwhile_idem.
Qed.

(** X6: links never decide.  The e-mail analysis gives no result exactly
    when the combined text is blank or the analysis of the text alone
    says it is not financial, however many links the body holds; and it
    never raises. *)
Theorem links_do_not_decide (body subject : str) :
  (analyze_email_content caps body subject = Return None <->
   whitespace_only (subject ++ newline ++ body) = true \/
   Analysis.is_financial
     (_analyze_financial_content caps (subject ++ newline ++ body)) = false)
  /\ exists r, analyze_email_content caps body subject = Return r.
Proof.
  split; [| apply try_except_returns].
  rewrite <- strip_nil_iff. unfold analyze_email_content. cbv zeta.
  destruct (strip (subject ++ newline ++ body)) as [| c rest] eqn:Es.
  - split; auto.
  - destruct (_extract_financial_links body) as [| l links];
      cbn [Analysis.is_financial];
      destruct (Analysis.is_financial _); cbn [try_except];
      split; try discriminate; auto;
      intros [H | H]; discriminate.
Qed.


(** X8: [process_attachment] never raises.  It gives no result for a
    media type that is missing or has no branch, and for a PDF that
    cannot be opened.  A result carries the caller's file name and media
    type unchanged, its media type has a branch, and its text is not
    empty. *)
Theorem process_attachment_edge_cases (file_data : bytes) (name : str)
    (mime : option str) :
  (exists r, process_attachment caps file_data name mime = Return r)
  /\ (unsupported mime ->
      process_attachment caps file_data name mime = Return None)
  /\ (forall e, pdf_pages caps file_data = Raise e ->
        process_attachment caps file_data name (Some (u "application/pdf"))
        = Return None)
  /\ (forall d,
        process_attachment caps file_data name mime = Return (Some d) ->
        filename d = name /\ mime_type d = mime /\ ~ unsupported mime
        /\ text d <> []).
Proof.
  split; [apply try_except_returns |]. split; [| split].
  - intros H. unfold process_attachment.
    now rewrite (@extract_text_unsupported _ caps file_data mime H).
  - intros e H. unfold process_attachment, _extract_text, _extract_from_pdf.
    cbn [eq_literal]. rewrite str_eqb_refl, H. reflexivity.
  - intros d H. apply process_attachment_result in H.
    destruct H as (txt & Htxt & Hne & _ & ->). cbn [filename mime_type text].
    split; [reflexivity |]. split; [reflexivity |]. split.
    + intros Hu. rewrite (@extract_text_unsupported _ caps file_data mime Hu) in Htxt.
      congruence.
    + destruct txt; [congruence | discriminate].
Qed.

End ProcessorTheorems.

(** ** Properties of the Gmail client *)

Section GmailFacts.
Context {rt : PyRuntime}.
Variable lib : Library.

Local Open Scope nat_scope.

(** *** Induction on the tree of parts *)

Lemma part_induction (P : part -> Prop) :
  (forall h f m b, P (Part h f m b None)) ->
  (forall h f m b ps, Forall P ps -> P (Part h f m b (Some ps))) ->
  forall p, P p.
Proof.
  intros Hleaf Hnode. fix IH 1. intros [h f m b [ps |]].
  - apply Hnode.
    refine ((fix all (qs : list part) : Forall P qs :=
               match qs with
               | [] => Forall_nil P
               | q :: qs' => Forall_cons q (IH q) (all qs')
               end) ps).
  - apply Hleaf.
Qed.

(** *** The loops inside the two recursive functions *)

Lemma extract_from_part_eq (p : part) (attachments : list Attachment.t) :
  extract_from_part p attachments =
    bind (match truthy (part_filename p) with
          | Some _ =>
              bind (attachment_info p)
                (fun info => Return (attachments ++ [info]))
          | None => Return attachments
          end)
      (fun attachments =>
         match part_parts p with
         | Some parts => _extract_attachments parts attachments
         | None => Return attachments
         end).
Proof.
  destruct p as [h f m b [ps |]]; cbn [extract_from_part part_parts];
    [| reflexivity].
  match goal with
  | |- bind ?c _ = _ => destruct c as [acc | e]
  end; cbn [bind]; [| reflexivity].
  revert acc. induction ps as [| q qs IH]; intros acc; [reflexivity |].
  cbn [_extract_attachments].
  destruct (extract_from_part q acc) as [acc' | e]; cbn [bind];
    [apply IH | reflexivity].
Qed.

Lemma part_and_descendants_eq (p : part) :
  part_and_descendants p =
    p :: match part_parts p with
         | Some parts => flatten_parts parts
         | None => []
         end.
Proof.
  destruct p as [h f m b [ps |]]; cbn [part_and_descendants part_parts];
    reflexivity.
Qed.

(** *** What the recursion collects *)

(** The parts that [_extract_attachments] turns into attachments *)
Lemma attachment_info_complete (p : part) :
  named p = true ->
  attachment_info p =
    if complete p then Return (info_of p) else Raise KeyError.
Proof.
  unfold named, attachment_info, complete, info_of, body_attachmentId, truthy.
  destruct (part_filename p) as [[| c f] |]; try discriminate. intros _.
  cbn [getitem bind].
  destruct (part_mimeType p) as [m |]; [| reflexivity]. cbn [getitem bind].
  destruct (part_body p) as [b |]; reflexivity.
Qed.

Lemma extract_from_part_spec (p : part) :
  forall attachments,
    extract_from_part p attachments =
      if forallb complete (filter named (part_and_descendants p))
      then Return (attachments
                   ++ map info_of (filter named (part_and_descendants p)))
      else Raise KeyError.
Proof.
  induction p as [h f m b | h f m b ps IH] using part_induction;
    intros attachments; rewrite extract_from_part_eq, part_and_descendants_eq;
    cbn [part_parts part_filename]; cbn [filter].
  - destruct (named (Part h f m b None)) eqn:En.
    + rewrite (attachment_info_complete _ En).
      unfold named in En. cbn [part_filename] in En.
      destruct (truthy f); [| discriminate].
      cbn [forallb filter map].
      destruct (complete (Part h f m b None)); cbn [bind andb];
        reflexivity.
    + unfold named in En. cbn [part_filename] in En.
      destruct (truthy f); [discriminate |].
      cbn [bind forallb map]. now rewrite app_nil_r.
  - assert (Hlist : forall acc,
              _extract_attachments ps acc =
                if forallb complete (filter named (flatten_parts ps))
                then Return (acc ++
                             map info_of (filter named (flatten_parts ps)))
                else Raise KeyError).
    { clear attachments. unfold flatten_parts.
      induction IH as [| q qs Hq Hqs IHqs]; intros acc;
        cbn [_extract_attachments flat_map filter forallb map].
      - now rewrite app_nil_r.
      - rewrite Hq.
        rewrite filter_app, forallb_app, map_app.
        destruct (forallb complete (filter named (part_and_descendants q)));
          cbn [bind andb]; [| reflexivity].
        rewrite IHqs.
        destruct (forallb complete
                    (filter named (flat_map part_and_descendants qs)));
          [| reflexivity].
        now rewrite app_assoc. }
    destruct (named (Part h f m b (Some ps))) eqn:En.
    + rewrite (attachment_info_complete _ En).
      unfold named in En. cbn [part_filename] in En.
      destruct (truthy f); [| discriminate].
      cbn [forallb map].
      destruct (complete (Part h f m b (Some ps))); cbn [bind andb];
        [| reflexivity].
      rewrite Hlist.
      destruct (forallb complete (filter named (flatten_parts ps)));
        [| reflexivity].
      now rewrite <- app_assoc.
    + unfold named in En. cbn [part_filename] in En.
      destruct (truthy f); [discriminate |].
      cbn [bind]. apply Hlist.
Qed.

Lemma extract_attachments_spec (parts : list part) :
  forall attachments,
    _extract_attachments parts attachments =
      if forallb complete (filter named (flatten_parts parts))
      then Return (attachments
                   ++ map info_of (filter named (flatten_parts parts)))
      else Raise KeyError.
Proof.
  unfold flatten_parts.
  induction parts as [| q qs IH]; intros acc;
    cbn [_extract_attachments flat_map filter forallb map].
  - now rewrite app_nil_r.
  - rewrite extract_from_part_spec.
    rewrite filter_app, forallb_app, map_app.
    destruct (forallb complete (filter named (part_and_descendants q)));
      cbn [bind andb]; [| reflexivity].
    rewrite IH.
    destruct (forallb complete
                (filter named (flat_map part_and_descendants qs)));
      [| reflexivity].
    now rewrite app_assoc.
Qed.

End GmailFacts.

Section GmailTheorems.
Context {rt : PyRuntime}.
Variable caps : Capabilities.
Variable lib : Library.

Local Open Scope nat_scope.

Lemma named_info_filename (p : part) :
  named p = true -> Attachment.filename (info_of p) <> [].
Proof.
  unfold named, info_of, truthy. cbn [Attachment.filename].
  destruct (part_filename p) as [[| c f] |]; discriminate.
Qed.

Lemma fold_left_map_same {A B} (f : A -> B -> A) (h : B -> B) (l : list B) :
  (forall a x, f a (h x) = f a x) ->
  forall a, fold_left f (map h l) a = fold_left f l a.
Proof.
  intros Hf. induction l as [| x l IH]; intros a; cbn [map fold_left].
  - reflexivity.
  - now rewrite Hf, IH.
Qed.

Lemma fold_left_same {A B} (f g : A -> B -> A) (l : list B) :
  (forall a x, f a x = g a x) ->
  forall a, fold_left f l a = fold_left g l a.
Proof.
  intros Hfg. induction l as [| x l IH]; intros a; cbn [fold_left].
  - reflexivity.
  - now rewrite Hfg, IH.
Qed.

Lemma stripped_text_not_blank (pre s : str) :
  strip s = s -> s <> [] -> whitespace_only (pre ++ s) = false.
Proof.
  intros Hs Hne. destruct s as [| c s']; [congruence |].
  assert (Hc : isspace c = false).
  { apply (dropwhile_head isspace (c :: s') (l' := s')).
    rewrite <- Hs at 1. rewrite strip_no_leading_space. exact Hs. }
  unfold whitespace_only. rewrite forallb_app. cbn [forallb].
  rewrite Hc. cbn [andb]. apply andb_false_r.
Qed.

(** X9: [_extract_attachments] walks the whole tree of parts.  When
    every part with a file name has its media type and its body, the
    attachments are exactly those parts, in the order of the tree, added
    after the attachments found before; when one of them lacks either
    entry, the call raises.  An attachment found this way never has an
    empty file name. *)
Theorem attachments_are_named_parts (parts : list part)
    (attachments : list Attachment.t) :
  (forallb complete (filter named (flatten_parts parts)) = true ->
   _extract_attachments parts attachments =
     Return (attachments
             ++ map info_of (filter named (flatten_parts parts))))
  /\ (forallb complete (filter named (flatten_parts parts)) = false ->
      exists e, _extract_attachments parts attachments = Raise e)
  /\ (forall found a,
        _extract_attachments parts [] = Return found ->
        In a found -> Attachment.filename a <> []).
Proof.
  rewrite !extract_attachments_spec. split; [| split].
  - intros ->. reflexivity.
  - intros ->. eauto.
  - intros found a H Hin.
    destruct (forallb complete (filter named (flatten_parts parts)));
      [| discriminate].
    injection H as <-. cbn [app] in Hin.
    apply in_map_iff in Hin. destruct Hin as (p & <- & Hp).
    apply filter_In in Hp. now apply named_info_filename.
Qed.

(** X10: [get_message_details] never raises, and gives [None] when the
    request fails, when the message has no payload, and when a single
    part with a file name, anywhere in the tree, lacks its media type or
    its body: the whole message is then lost to the scan. *)
Theorem malformed_part_hides_message (service : GmailService)
    (message_id : str) :
  (exists r, get_message_details lib service message_id = Return r)
  /\ (forall e, messages_get service message_id = Raise e ->
        get_message_details lib service message_id = Return None)
  /\ (forall message,
        messages_get service message_id = Return message ->
        Message.payload message = None ->
        get_message_details lib service message_id = Return None)
  /\ (forall message payload parts,
        messages_get service message_id = Return message ->
        Message.payload message = Some payload ->
        part_parts payload = Some parts ->
        forallb complete (filter named (flatten_parts parts)) = false ->
        get_message_details lib service message_id = Return None).
Proof.
  split; [apply try_except_returns |].
  unfold get_message_details. split; [| split].
  - intros e ->. reflexivity.
  - intros message -> Hp. cbn [bind]. unfold _parse_message.
    rewrite Hp. reflexivity.
  - intros message payload parts -> Hp Hparts Hbad.
    cbn [bind]. unfold _parse_message. rewrite Hp. cbn [bind getitem].
    destruct (quote lib _) as [q | e]; cbn [bind try_except];
      [| reflexivity].
    rewrite Hparts, extract_attachments_spec, Hbad. reflexivity.
Qed.

(** X11: what a message that was read carries: the id of the message,
    as subject the value of the first header named exactly [Subject]
    (the empty string when there is none), a stripped body text,
    and, for a message with parts, the parts with a file name as its
    attachments. *)
Theorem message_details_fields (service : GmailService) (message_id : str)
    (md : MessageData.t) :
  get_message_details lib service message_id = Return (Some md) ->
  exists message payload,
    messages_get service message_id = Return message /\
    Message.payload message = Some payload /\
    MessageData.id md = Message.id message /\
    MessageData.subject md =
      header_value (match part_headers payload with
                    | Some hs => hs | None => [] end) (u "Subject") /\
    MessageData.body_text md = _extract_body_text lib payload /\
    strip (MessageData.body_text md) = MessageData.body_text md /\
    (forall parts, part_parts payload = Some parts ->
       MessageData.attachments md =
         map info_of (filter named (flatten_parts parts)) /\
       forall a, In a (MessageData.attachments md) ->
                 Attachment.filename a <> []).
Proof.
  unfold get_message_details. intros H.
  destruct (messages_get service message_id) as [message | e];
    cbn [bind try_except] in H; [| discriminate].
  unfold _parse_message in H.
  destruct (Message.payload message) as [payload |] eqn:Hp;
    cbn [bind getitem try_except] in H; [| discriminate].
  destruct (quote lib _) as [q | e]; cbn [bind try_except] in H;
    [| discriminate].
  match type of H with
  | try_except (bind (bind ?c _) _) _ = _ =>
      destruct c as [atts | e] eqn:Hatts
  end; cbn [bind try_except] in H; [| discriminate].
  injection H as <-.
  exists message, payload. cbn [MessageData.id MessageData.subject
    MessageData.body_text MessageData.attachments].
  split; [reflexivity |]. split; [exact Hp |].
  split; [reflexivity |]. split; [reflexivity |]. split; [reflexivity |].
  split; [unfold _extract_body_text; apply strip_idem |].
  intros parts Hparts. rewrite Hparts, extract_attachments_spec in Hatts.
  destruct (forallb complete (filter named (flatten_parts parts)));
    [| discriminate].
  injection Hatts as <-. cbn [app]. split; [reflexivity |].
  intros a Hin. apply in_map_iff in Hin. destruct Hin as (p & <- & Hin).
  apply filter_In in Hin. now apply named_info_filename.
Qed.

(** X12: the body text is read from the payload, its parts and the parts
    of those, and from nothing deeper: cutting the tree below the second
    level does not change it. *)
Theorem body_text_reads_two_levels (payload : part) :
  _extract_body_text lib (prune 2 payload) = _extract_body_text lib payload.
Proof.
  assert (Hadd : forall d a p, add_body_data lib a (prune d p)
                               = add_body_data lib a p).
  { intros d a p. destruct d; reflexivity. }
  assert (Hmime : forall d p, mime_or_empty (prune d p) = mime_or_empty p).
  { intros d p. destruct d; reflexivity. }
  unfold _extract_body_text. f_equal.
  change (body_data (prune 2 payload)) with (body_data payload).
  destruct (truthy (body_data payload)); [reflexivity |].
  change (part_parts (prune 2 payload))
    with (option_map (map (prune 1)) (part_parts payload)).
  destruct (part_parts payload) as [parts |]; [| reflexivity].
  cbn [option_map]. apply fold_left_map_same. intros a p.
  rewrite Hmime, Hadd.
  destruct (is_text_type (mime_or_empty p)); [reflexivity |].
  change (part_parts (prune 1 p))
    with (option_map (map (prune 0)) (part_parts p)).
  destruct (part_parts p) as [nested |]; [| reflexivity].
  cbn [option_map]. apply fold_left_map_same. intros a' q.
  now rewrite Hmime, Hadd.
Qed.

(** X13: a body text that the scan finds not empty is never blank
    together with its subject, so for a message that was read the
    e-mail analysis gives no result only when the analysis of the text
    says it is not financial. *)
Theorem scanned_body_is_never_blank (service : GmailService)
    (message_id : str) (md : MessageData.t) :
  get_message_details lib service message_id = Return (Some md) ->
  MessageData.body_text md <> [] ->
  whitespace_only
    (MessageData.subject md ++ newline ++ MessageData.body_text md) = false
  /\ (analyze_email_content caps (MessageData.body_text md)
        (MessageData.subject md) = Return None <->
      Analysis.is_financial
        (_analyze_financial_content caps
           (MessageData.subject md ++ newline ++ MessageData.body_text md))
      = false).
Proof.
  intros H Hne.
  assert (Hs : strip (MessageData.body_text md) = MessageData.body_text md).
  { unfold get_message_details in H.
    destruct (messages_get service message_id) as [message | e];
      cbn [bind try_except] in H; [| discriminate].
    unfold _parse_message in H.
    destruct (Message.payload message) as [payload |];
      cbn [bind getitem try_except] in H; [| discriminate].
    destruct (quote lib _) as [q | e]; cbn [bind try_except] in H;
      [| discriminate].
    match type of H with
    | try_except (bind (bind ?c _) _) _ = _ => destruct c as [atts | e]
    end; cbn [bind try_except] in H; [| discriminate].
    injection H as <-. cbn [MessageData.body_text].
    unfold _extract_body_text. apply strip_idem. }
  assert (Hblank : whitespace_only
            (MessageData.subject md ++ newline ++ MessageData.body_text md)
          = false).
  { rewrite app_assoc. now apply stripped_text_not_blank. }
  split; [exact Hblank |].
  unfold analyze_email_content. cbv zeta.
  destruct (strip (MessageData.subject md ++ newline
                   ++ MessageData.body_text md)) as [| c rest] eqn:Es.
  - apply strip_nil_iff in Es. congruence.
  - destruct (_extract_financial_links (MessageData.body_text md));
      cbn [Analysis.is_financial];
      destruct (Analysis.is_financial _); cbn [try_except];
      split; congruence.
Qed.

End GmailTheorems.

(** ** Properties of the database *)

Section DatabaseFacts.
Variable lib : Library.
Variable db_fails : nat -> bool.

Local Open Scope nat_scope.

Lemma str_eqb_eq (a b : str) : str_eqb a b = true <-> a = b.
Proof.
  split; [| intros ->; apply str_eqb_refl].
  revert b. induction a as [| x a IH]; intros [| y b]; cbn [str_eqb];
    try discriminate; [reflexivity |].
  unfold char_eqb. intros H. apply andb_true_iff in H.
  destruct H as [Hxy Hab]. apply N.eqb_eq in Hxy. apply IH in Hab.
  now subst.
Qed.

Lemma same_key_iff (a b : DocRow.t) :
  same_key a b = true <-> row_key a = row_key b.
Proof.
  unfold same_key, row_key. rewrite andb_true_iff, !str_eqb_eq.
  split; [intros [-> ->]; reflexivity | intros H; now injection H].
Qed.

Lemma same_key_refl (a : DocRow.t) : same_key a a = true.
Proof. now apply same_key_iff. Qed.



Lemma unique_keys_filter (f : DocRow.t -> bool) (table : list DocRow.t) :
  unique_keys table -> unique_keys (filter f table).
Proof.
  unfold unique_keys. induction table as [| r table IH]; cbn [filter map].
  - trivial.
  - intros H. apply NoDup_cons_iff in H. destruct H as [Hnotin Hnd].
    destruct (f r); cbn [map]; [| now apply IH].
    constructor; [| now apply IH].
    intros Hin. apply Hnotin. apply in_map_iff in Hin.
    destruct Hin as (x & Hx & Hin). apply filter_In in Hin.
    apply in_map_iff. exists x. tauto.
Qed.

Lemma insert_or_replace_unique (row : DocRow.t) (table : list DocRow.t) :
  unique_keys table -> unique_keys (insert_or_replace row table).
Proof.
  intros H. unfold insert_or_replace, unique_keys. rewrite map_app.
  apply NoDup_app.
  - now apply unique_keys_filter.
  - cbn [map]. constructor; [intros [] | constructor].
  - intros key Hin [<- | []]. apply in_map_iff in Hin.
    destruct Hin as (x & Hx & Hin). apply filter_In in Hin.
    destruct Hin as [_ Hneq]. apply same_key_iff in Hx.
    rewrite Hx in Hneq. discriminate.
Qed.

Lemma insert_or_replace_one (row : DocRow.t) (table : list DocRow.t) :
  filter (fun r => same_key r row) (insert_or_replace row table) = [row].
Proof.
  unfold insert_or_replace. rewrite filter_app. cbn [filter].
  rewrite same_key_refl.
  replace (filter (fun r => same_key r row)
             (filter (fun r => negb (same_key r row)) table))
    with (@nil DocRow.t); [reflexivity |].
  induction table as [| r table IH]; [reflexivity |].
  cbn [filter]. destruct (same_key r row) eqn:E; cbn [negb filter];
    [exact IH |]. now rewrite E.
Qed.

Lemma insert_or_replace_others (row : DocRow.t) (table : list DocRow.t) :
  filter (fun r => negb (same_key r row)) (insert_or_replace row table) =
  filter (fun r => negb (same_key r row)) table.
Proof.
  unfold insert_or_replace. rewrite filter_app. cbn [filter].
  rewrite same_key_refl. cbn [negb]. rewrite app_nil_r.
  induction table as [| r table IH]; [reflexivity |].
  cbn [filter]. destruct (same_key r row) eqn:E; cbn [negb filter];
    [exact IH |]. rewrite E. cbn [negb]. now rewrite IH.
Qed.

Lemma save_document_run (md : MessageData.t) (d : DocumentAnalysis)
    (ty : str) (db : Store.t) :
  save_document lib db_fails md d ty db =
    if db_fails (Store.statements db)
    then (Return false,
          Store.make (Store.financial_documents db) (Store.scan_history db)
            (S (Store.statements db)))
    else (Return true,
          Store.make
            (insert_or_replace (document_row lib md d ty)
               (Store.financial_documents db))
            (Store.scan_history db) (S (Store.statements db))).
Proof.
  unfold save_document, st_try, st_bind, execute, st_ret.
  destruct (db_fails (Store.statements db)); reflexivity.
Qed.

(** X14: [save_document] never raises.  When the statement fails it
    answers [False] and leaves both tables as they were.  When it
    succeeds it answers [True]; the table then holds the new row as the
    only row for its message and file name, every row for another
    message or file name is kept, and the history is untouched.  Either
    way a table without two rows for the same message and file name
    stays so. *)
Theorem save_document_replaces (md : MessageData.t) (d : DocumentAnalysis)
    (ty : str) (db : Store.t) :
  let row := document_row lib md d ty in
  exists answer db',
    save_document lib db_fails md d ty db = (Return answer, db')
    /\ answer = negb (db_fails (Store.statements db))
    /\ Store.scan_history db' = Store.scan_history db
    /\ (answer = false ->
        Store.financial_documents db' = Store.financial_documents db)
    /\ (answer = true ->
        filter (fun r => same_key r row) (Store.financial_documents db')
          = [row]
        /\ filter (fun r => negb (same_key r row))
             (Store.financial_documents db')
           = filter (fun r => negb (same_key r row))
               (Store.financial_documents db))
    /\ (unique_keys (Store.financial_documents db) ->
        unique_keys (Store.financial_documents db')).
Proof.
  cbv zeta. rewrite save_document_run.
  destruct (db_fails (Store.statements db)); eexists _, _;
    (split; [reflexivity |]); cbn [negb Store.financial_documents
                                    Store.scan_history].
  - repeat split; try discriminate; auto.
  - split; [reflexivity |]. split; [reflexivity |].
    split; [discriminate |].
    split; [intros _; split;
            [apply insert_or_replace_one | apply insert_or_replace_others] |].
    apply insert_or_replace_unique.
Qed.

End DatabaseFacts.

(** ** Properties of the scanner *)

Section ScannerFacts.
Context {rt : PyRuntime}.
Variable caps : Capabilities.
Variable lib : Library.
Variable db_fails : nat -> bool.

Local Open Scope Z_scope.

(** *** Attachments that are taken *)

Lemma endswith_spec (s suffix : str) :
  endswith s suffix = true <-> exists stem, s = stem ++ suffix.
Proof.
  unfold endswith. rewrite startswith_spec. split.
  - intros (post & H). exists (rev post).
    rewrite <- (rev_involutive s), H, rev_app_distr, rev_involutive.
    reflexivity.
  - intros (stem & ->). exists (rev stem). apply rev_app_distr.
Qed.

Lemma list_mem_in (x : str) (l : list str) :
  list_mem x l = true <-> In x l.
Proof.
  unfold list_mem. rewrite existsb_exists. split.
  - intros (y & Hin & Heq). apply str_eqb_eq in Heq. now subst.
  - intros Hin. exists x. split; [exact Hin | apply str_eqb_refl].
Qed.

Lemma supported_types_have_branch (m : str) :
  In m supported_types -> supported_type m = true.
Proof.
  intros H. unfold supported_types in H. cbn [map In] in H.
  repeat (destruct H as [<- | H]; [vm_compute; reflexivity |]).
  destruct H.
Qed.

Lemma should_process_facts (a : Attachment.t) :
  _should_process_attachment a = true ->
  Attachment.size a <= 10485760
  /\ (exists ext stem, In ext financial_extensions /\
                       lower (Attachment.filename a) = stem ++ ext)
  /\ In (Attachment.mime_type a) supported_types.
Proof.
  unfold _should_process_attachment.
  destruct (10 * 1024 * 1024 <? Attachment.size a) eqn:Esize;
    [discriminate |].
  destruct (existsb _ financial_extensions) eqn:Eext; cbn [negb];
    [| discriminate].
  intros Hmime. apply Z.ltb_ge in Esize.
  apply existsb_exists in Eext. destruct Eext as (ext & Hin & Hend).
  apply endswith_spec in Hend. destruct Hend as (stem & Hstem).
  apply list_mem_in in Hmime.
  split; [lia |]. split; [now exists ext, stem | exact Hmime].
Qed.

(** *** What [_process_attachment] returns *)

Lemma download_attachment_returns (service : GmailService) (id : str)
    (aid : option str) :
  exists r, download_attachment lib service id aid = Return r.
Proof. apply try_except_returns. Qed.



(** *** Stretches of a scan *)









End ScannerFacts.

Section ScannerTheorems.
Context {rt : PyRuntime}.
Variable caps : Capabilities.
Variable lib : Library.
Variable db_fails : nat -> bool.

Local Open Scope Z_scope.



(** X15: an attachment is taken exactly when it is no larger than 10 MiB,
    its lower-cased file name ends in one of the six extensions and its
    media type is one of the six supported types; its media type then
    has a branch in [_extract_text]. *)
Theorem accepted_attachment_has_branch (a : Attachment.t) :
  (_should_process_attachment a = true <->
   Attachment.size a <= 10485760
   /\ (exists ext stem, In ext financial_extensions /\
                        lower (Attachment.filename a) = stem ++ ext)
   /\ In (Attachment.mime_type a) supported_types)
  /\ (_should_process_attachment a = true ->
      supported_type (Attachment.mime_type a) = true
      /\ ~ unsupported (Some (Attachment.mime_type a))).
Proof.
  split; [split; [apply should_process_facts |] |].
  - intros (Hsize & (ext & stem & Hin & Hstem) & Hmime).
    unfold _should_process_attachment.
    replace (10 * 1024 * 1024 <? Attachment.size a) with false
      by (symmetry; apply Z.ltb_ge; lia).
    replace (existsb (fun e => endswith (lower (Attachment.filename a)) e)
               financial_extensions) with true.
    + cbn [negb]. now apply list_mem_in.
    + symmetry. apply existsb_exists. exists ext. split; [exact Hin |].
      apply endswith_spec. now exists stem.
  - intros H. apply should_process_facts in H. destruct H as (_ & _ & H).
    apply supported_types_have_branch in H. split; [exact H |].
    unfold unsupported. congruence.
Qed.




End ScannerTheorems.

(** ** Runs of the further properties on concrete inputs *)

Local Open Scope Z_scope.

Lemma amounts_occur_in_text_witness :
  In (u "$5.00")
    (Analysis.amounts
       (_analyze_financial_content caps_failing (u "pay $5.00 now")))
  /\ substring (u "$5.00") (u "pay $5.00 now")
  /\ (5 <= List.length (u "$5.00"))%nat.
Proof.
  assert (H : In (u "$5.00")
                (Analysis.amounts
                   (_analyze_financial_content caps_failing
                      (u "pay $5.00 now"))))
    by (vm_compute; left; reflexivity).
  split; [exact H |].
  exact (amounts_occur_in_text caps_failing (u "pay $5.00 now") (u "$5.00") H).
Defined.

Lemma keywords_come_from_lexicon_witness :
  In (u "invoice")
    (Analysis.keywords
       (_analyze_financial_content (caps_lang "de") (u "Invoice 12")))
  /\ (In (u "invoice")
        (keywords_of (detected_language (caps_lang "de") (u "Invoice 12")))
      \/ In (u "invoice") (keywords_of (u "en")))
  /\ substring (u "invoice") (lower (u "Invoice 12")).
Proof.
  assert (H : In (u "invoice")
                (Analysis.keywords
                   (_analyze_financial_content (caps_lang "de")
                      (u "Invoice 12"))))
    by (vm_compute; left; reflexivity).
  split; [exact H |].
  exact (keywords_come_from_lexicon (caps_lang "de") (u "Invoice 12")
           (u "invoice") H).
Defined.

Lemma email_keywords_origin_witness :
  exists d,
    analyze_email_content (caps_lang "en") scenario_body scenario_subject
      = Return (Some d)
    /\ In (u "link:https://billing.example.com/in...") (keywords_found d)
    /\ (lexicon_hit (lower (scenario_subject ++ newline ++ scenario_body))
          (detected_language (caps_lang "en")
             (scenario_subject ++ newline ++ scenario_body))
          (u "link:https://billing.example.com/in...")
        \/ exists link,
             In link (_extract_financial_links scenario_body) /\
             u "link:https://billing.example.com/in..." =
               u "link:" ++ firstn 30 link ++ u "...").
Proof.
  eexists. split; [vm_compute; reflexivity |].
  match goal with
  | |- In ?k ?l /\ _ => assert (H : In k l) by (vm_compute; tauto)
  end.
  split; [exact H |].
  refine (@email_keywords_origin _ (caps_lang "en") scenario_body
            scenario_subject _ _ _ H).
  vm_compute. reflexivity.
Defined.

Lemma text_snippet_is_prefix_witness :
  (exists d txt rest,
      process_attachment caps_failing (list_byte_of_string "  $5.00 ")
        (u "a.txt") (Some (u "text/plain")) = Return (Some d)
      /\ _extract_text caps_failing (list_byte_of_string "  $5.00 ")
           (Some (u "text/plain")) = Return txt
      /\ txt = text d ++ rest
      /\ List.length (text d) = Nat.min 1000 (List.length txt))
  /\ (exists d rest,
        analyze_email_content caps_failing (u "$5.00") (u "Bill")
          = Return (Some d)
        /\ u "Bill" ++ newline ++ u "$5.00" = text d ++ rest
        /\ List.length (text d) =
             Nat.min 1000 (List.length (u "Bill" ++ newline ++ u "$5.00"))).
Proof.
  split.
  - destruct (process_attachment caps_failing
                (list_byte_of_string "  $5.00 ") (u "a.txt")
                (Some (u "text/plain"))) as [[d |] | e] eqn:E;
      try (vm_compute in E; discriminate).
    destruct (proj1 (text_snippet_is_prefix caps_failing) _ _ _ _ E)
      as (txt & rest & H1 & H2 & H3).
    exists d, txt, rest. auto.
  - destruct (analyze_email_content caps_failing (u "$5.00") (u "Bill"))
      as [[d |] | e] eqn:E; try (vm_compute in E; discriminate).
    destruct (proj2 (text_snippet_is_prefix caps_failing) _ _ _ E)
      as (rest & H1 & H2).
    exists d, rest. auto.
Defined.

Lemma extracted_text_is_stripped_witness :
  _extract_text caps_failing (list_byte_of_string "  $5.00 ")
    (Some (u "text/plain")) = Return (u "$5.00")
  /\ strip (u "$5.00") = u "$5.00".
Proof.
  assert (H : _extract_text caps_failing (list_byte_of_string "  $5.00 ")
                (Some (u "text/plain")) = Return (u "$5.00"))
    by (vm_compute; reflexivity).
  split; [exact H |].
  exact (proj1 (extracted_text_is_stripped caps_failing _ _ H)).
Defined.

(** Five links would add 15 points, and the e-mail still has no
    result. *)
Lemma links_do_not_decide_witness :
  List.length (_extract_financial_links five_links) = 5%nat
  /\ Analysis.is_financial
       (_analyze_financial_content (caps_lang "en") ([] ++ newline ++ five_links))
     = false
  /\ analyze_email_content (caps_lang "en") five_links [] = Return None.
Proof.
  assert (H : Analysis.is_financial
                (_analyze_financial_content (caps_lang "en")
                   ([] ++ newline ++ five_links)) = false)
    by (vm_compute; reflexivity).
  split; [vm_compute; reflexivity |]. split; [exact H |].
  exact (proj2 (proj1 (links_do_not_decide (caps_lang "en") five_links []))
           (or_intror H)).
Defined.


Lemma process_attachment_edge_cases_witness :
  unsupported (Some (u "application/zip"))
  /\ process_attachment caps_failing (list_byte_of_string "$5.00")
       (u "a.zip") (Some (u "application/zip")) = Return None.
Proof.
  assert (H : unsupported (Some (u "application/zip")))
    by (vm_compute; reflexivity).
  split; [exact H |].
  exact (proj1 (proj2 (process_attachment_edge_cases caps_failing
                         (list_byte_of_string "$5.00") (u "a.zip")
                         (Some (u "application/zip")))) H).
Defined.

(** The good attachment is found; with the part without a body below
    it, the call raises. *)
Lemma attachments_are_named_parts_witness :
  (forallb complete
     (filter named (flatten_parts [wrap deep_text_part; part_without_body]))
   = false
   /\ exists e, _extract_attachments [wrap deep_text_part; part_without_body]
                  [] = Raise e)
  /\ (forallb complete
        (filter named
           (flatten_parts
              [Part None (Some (u "Bill.TXT")) (Some (u "text/plain"))
                 (Some (Body.make (Some (u "a1")) (Some 23) None)) None]))
      = true
      /\ _extract_attachments
           [Part None (Some (u "Bill.TXT")) (Some (u "text/plain"))
              (Some (Body.make (Some (u "a1")) (Some 23) None)) None] []
         = Return [bill_attachment]).
Proof.
  split.
  - assert (H : forallb complete
                  (filter named
                     (flatten_parts [wrap deep_text_part; part_without_body]))
                = false) by reflexivity.
    split; [exact H |].
    exact (proj1 (proj2 (attachments_are_named_parts
                           [wrap deep_text_part; part_without_body] [])) H).
  - assert (H : forallb complete
                  (filter named
                     (flatten_parts
                        [Part None (Some (u "Bill.TXT"))
                           (Some (u "text/plain"))
                           (Some (Body.make (Some (u "a1")) (Some 23) None))
                           None])) = true) by reflexivity.
    split; [exact H |].
    exact (proj1 (attachments_are_named_parts _ []) H).
Defined.

Lemma malformed_part_hides_message_witness :
  messages_get broken_mailbox (u "m2") = Return broken_message
  /\ get_message_details table_library broken_mailbox (u "m2") = Return None.
Proof.
  assert (H : messages_get broken_mailbox (u "m2") = Return broken_message)
    by reflexivity.
  split; [exact H |].
  refine (proj2 (proj2 (proj2 (malformed_part_hides_message table_library
                                 broken_mailbox (u "m2"))))
            broken_message _ _ H eq_refl eq_refl _).
  vm_compute. reflexivity.
Defined.

Lemma message_details_fields_witness :
  get_message_details table_library one_message_mailbox (u "m1")
    = Return (Some invoice_message_data)
  /\ strip (MessageData.body_text invoice_message_data)
     = MessageData.body_text invoice_message_data.
Proof.
  assert (H : get_message_details table_library one_message_mailbox (u "m1")
              = Return (Some invoice_message_data))
    by (vm_compute; reflexivity).
  split; [exact H |].
  destruct (message_details_fields table_library one_message_mailbox
              (u "m1") H) as (m & p & _ & _ & _ & _ & _ & Hs & _).
  exact Hs.
Defined.

(** A text three levels down is not read. *)
Example deep_text_is_not_read :
  _extract_body_text table_library (wrap (wrap deep_text_part))
    = u "Invoice total: 5.00 EUR"
  /\ _extract_body_text table_library (wrap (wrap (wrap deep_text_part)))
     = [].
Proof. split; vm_compute; reflexivity. Qed.

Lemma scanned_body_is_never_blank_witness :
  get_message_details table_library one_message_mailbox (u "m1")
    = Return (Some invoice_message_data)
  /\ MessageData.body_text invoice_message_data <> []
  /\ whitespace_only
       (MessageData.subject invoice_message_data ++ newline
        ++ MessageData.body_text invoice_message_data) = false.
Proof.
  assert (H : get_message_details table_library one_message_mailbox (u "m1")
              = Return (Some invoice_message_data))
    by (vm_compute; reflexivity).
  assert (Hne : MessageData.body_text invoice_message_data <> [])
    by (vm_compute; discriminate).
  split; [exact H |]. split; [exact Hne |].
  exact (proj1 (scanned_body_is_never_blank (caps_lang "en") table_library
                  one_message_mailbox (u "m1") H Hne)).
Defined.

Lemma accepted_attachment_has_branch_witness :
  _should_process_attachment bill_attachment = true
  /\ supported_type (Attachment.mime_type bill_attachment) = true.
Proof.
  assert (H : _should_process_attachment bill_attachment = true)
    by (vm_compute; reflexivity).
  split; [exact H |].
  exact (proj1 (proj2 (accepted_attachment_has_branch bill_attachment) H)).
Defined.




Lemma save_document_replaces_witness :
  exists db1 db2,
    save_document table_library never_fails invoice_message_data
      {| filename := u "Bill.TXT"; mime_type := Some (u "text/plain");
         text := u "5.00 EUR"; language := u "en"; financial_score := 5;
         amounts_found := [u "5.00 EUR"]; keywords_found := [] |}
      (u "attachment") empty_store = (Return true, db1)
    /\ save_document table_library never_fails invoice_message_data
         {| filename := u "Bill.TXT"; mime_type := Some (u "text/plain");
            text := u "9.00 EUR"; language := u "en"; financial_score := 5;
            amounts_found := [u "9.00 EUR"]; keywords_found := [] |}
         (u "attachment") db1 = (Return true, db2)
    /\ map DocRow.text_content (Store.financial_documents db2) = [u "9.00 EUR"].
Proof.
  destruct (save_document_replaces table_library never_fails
              invoice_message_data
              {| filename := u "Bill.TXT"; mime_type := Some (u "text/plain");
                 text := u "5.00 EUR"; language := u "en";
                 financial_score := 5;
                 amounts_found := [u "5.00 EUR"]; keywords_found := [] |}
              (u "attachment") empty_store) as (a1 & db1 & H1 & -> & _).
  exists db1.
  destruct (save_document_replaces table_library never_fails
              invoice_message_data
              {| filename := u "Bill.TXT"; mime_type := Some (u "text/plain");
                 text := u "9.00 EUR"; language := u "en";
                 financial_score := 5;
                 amounts_found := [u "9.00 EUR"]; keywords_found := [] |}
              (u "attachment") db1) as (a2 & db2 & H2 & -> & _).
  exists db2. split; [exact H1 |]. split; [exact H2 |].
  rewrite save_document_run in H1, H2.
  cbn [never_fails] in H1, H2.
  injection H1 as <-. injection H2 as <-. vm_compute. reflexivity.
Defined.

(** ** Properties of the web application *)

Section WebAppTheorems.
Context {rt : PyRuntime}.
Variable caps : Capabilities.
Variable lib : Library.
Variable db_fails : nat -> bool.
Variable new_client : Exc GmailService.
Variable exn_text : exn -> str.

Local Open Scope Z_scope.


End WebAppTheorems.

(** Two attachments of one message with the same file name: both are
    counted, and the second replaces the row of the first. *)
Example same_name_attachments_counted_twice :
  fst (scan_gmail (caps_lang "en") table_library never_fails
         (Some twin_mailbox) 30 empty_store) = Return (Some 2%Z)
  /\ List.length
       (Store.financial_documents
          (snd (scan_gmail (caps_lang "en") table_library never_fails
                  (Some twin_mailbox) 30 empty_store))) = 1%nat.
Proof. split; vm_compute; reflexivity. Qed.

(** The status after a scan of that mailbox, and after a scan whose
    history statement fails *)
Example run_scan_status :
  fst (fst (run_scan (caps_lang "en") table_library never_fails
              (Return twin_mailbox) plain_text 30 idle_status None
              empty_store))
  = Status.make false (text_done (Some 2%Z)) 0%Z (Some 2%Z)
  /\ fst (fst (run_scan (caps_lang "en") table_library always_fails
                 (Return twin_mailbox) plain_text 30 idle_status None
                 empty_store))
     = Status.make false (u "Ошибка: " ++ u "disk I/O error") 0%Z (Some 0%Z).
Proof. split; vm_compute; reflexivity. Qed.
